(** * Endercom agent functions (src/function.ts): a shallow embedding

    [AgentFunction] owns an Express application with three routes, one
    outbound registration call, one outbound deregistration call and the
    start/stop sequence around them.  The class is embedded method by method
    in a small state, trace and exception monad over the instance's fields.
    The platform's reply to an outbound request, the handler's behaviour and
    whether the operating system binds the socket are inputs of the model. *)

From Stdlib Require Import ZArith List String Ascii Bool Lia.
From Stdlib Require Import DecimalString.
Import ListNotations.
Local Open Scope string_scope.
Local Open Scope Z_scope.
Set Warnings "-register-all".

(** ** JavaScript values

    The values that travel through the class: parsed JSON (request bodies,
    platform replies, handler results) and [undefined], which a property read
    produces.  Numbers are integers here, [VNum n] standing for the number
    that the literal [n] denotes: the class only tests a number for zero
    ([||], [&&], [!]) and prints it inside a template literal. *)

Inductive value : Type :=
| VUndefined
| VNull
| VBool (b : bool)
| VNum (n : Z)
| VStr (s : string)
| VArr (items : list value)
| VObj (fields : list (string * value)).

(** What is thrown or what a promise is rejected with: an [Error] object
    ([new Error(m)], a [TypeError], an axios error) or any other value. *)
Inductive thrown : Type :=
| ErrorObj (message : string)
| Raised (v : value).

(** How an awaited computation ends: with a value, with an exception (a
    rejected promise), or never (a promise that is never settled). *)
Inductive completion (A : Type) : Type :=
| Normal (a : A)
| Throw (e : thrown)
| Pending.
Arguments Normal {A} a.
Arguments Throw {A} e.
Arguments Pending {A}.

Module JS.

(** ToBoolean: [undefined], [null], [false], [0] and [''] are falsy. *)
Definition truthy (v : value) : bool :=
  match v with
  | VUndefined | VNull => false
  | VBool b => b
  | VNum n => negb (n =? 0)
  | VStr s => negb (s =? EmptyString)%string
  | VArr _ | VObj _ => true
  end.

(** [a || b] *)
Definition or (a b : value) : value := if truthy a then a else b.

(** Decimal digits of an integer. *)
Definition decimal (n : Z) : string := NilZero.string_of_int (Z.to_int n).

(** The double nearest to a positive integer [z] (ties to even), as the
    mantissa [m] and exponent [e] of [m * 2 ^ e]; an integer below [2 ^ 53]
    is a double as it stands. *)
Definition nearest_double (z : Z) : Z * Z :=
  let bl := Z.log2 z + 1 in
  if bl <=? 53 then (z, 0)
  else
    let e := bl - 53 in
    let q := z / 2 ^ e in
    let r := z mod 2 ^ e in
    let half := 2 ^ (e - 1) in
    let m := if (half <? r) || ((r =? half) && Z.odd q) then q + 1 else q in
    if m =? 2 ^ 53 then (2 ^ 52, e + 1) else (m, e).

(** The integer [c] reads back as the double [m * 2 ^ e]: it lies within
    half a gap of it, the ends included when [m] is even. *)
Definition rounds_to (m e c : Z) : bool :=
  let x4 := 4 * (m * 2 ^ e) in
  let hi4 := x4 + 2 * 2 ^ e in
  let lo4 := x4 - (if m =? 2 ^ 52 then 2 ^ e else 2 * 2 ^ e) in
  if Z.even m then (lo4 <=? 4 * c) && (4 * c <=? hi4)
  else (lo4 <? 4 * c) && (4 * c <? hi4).

(** The integer with the fewest significant digits that reads back as the
    double [m * 2 ^ e], the closest one if there are several: the digits
    Number::toString prints. *)
Fixpoint shortest (fuel : nat) (m e : Z) : Z :=
  let x := m * 2 ^ e in
  match fuel with
  | O => x
  | S p =>
      let pw := 10 ^ Z.of_nat p in
      let low := (x / pw) * pw in
      let high := low + pw in
      let low_ok := (0 <? low) && rounds_to m e low in
      let high_ok := rounds_to m e high in
      if low_ok && high_ok then
        if (x - low) <? (high - x) then low
        else if (high - x) <? (x - low) then high
        else if Z.even (low / pw) then low else high
      else if low_ok then low
      else if high_ok then high
      else shortest p m e
  end.

Fixpoint strip_zeros (s : string) : string :=
  match s with
  | EmptyString => EmptyString
  | String c rest =>
      match strip_zeros rest with
      | EmptyString =>
          if (c =? "0")%char then EmptyString else String c EmptyString
      | rest' => String c rest'
      end
  end.

(** [d.ddde+n], the form of a number of 22 digits or more. *)
Definition exponential (c : Z) : string :=
  let all := decimal c in
  let n := Z.of_nat (String.length all) in
  match strip_zeros all with
  | EmptyString => "0"
  | String d EmptyString => String d ("e+" ++ decimal (n - 1))
  | String d rest => String d ("." ++ rest ++ "e+" ++ decimal (n - 1))
  end.

Definition print_positive (z : Z) : string :=
  let '(m, e) := nearest_double z in
  if 971 <? e then "Infinity"
  else
    let c := shortest (String.length (decimal (m * 2 ^ e)) + 1) m e in
    if 10 ^ 21 <=? c then exponential c else decimal c.

(** Number::toString of the number that the integer literal [n] denotes
    (the nearest double): plain decimal below [1e21], exponent form from
    there on, [Infinity] beyond the doubles. *)
Definition num_to_string (n : Z) : string :=
  if n =? 0 then "0"
  else if n <? 0 then "-" ++ print_positive (- n)
  else print_positive n.

Fixpoint join (sep : string) (l : list string) : string :=
  match l with
  | [] => EmptyString
  | [x] => x
  | x :: rest => x ++ sep ++ join sep rest
  end.

Fixpoint lookup (k : string) (fields : list (string * value)) : option value :=
  match fields with
  | [] => None
  | (k', v) :: rest => if (k =? k')%string then Some v else lookup k rest
  end.

(** The results of a list of conversions, unless one of them throws. *)
Fixpoint all_strings (l : list (completion string)) : completion (list string) :=
  match l with
  | [] => Normal []
  | Normal x :: rest =>
      match all_strings rest with
      | Normal xs => Normal (x :: xs)
      | Throw e => Throw e
      | Pending => Pending
      end
  | Throw e :: _ => Throw e
  | Pending :: _ => Pending
  end.

Definition to_primitive_error : string :=
  "Cannot convert object to primitive value".

(** ToString, as a template literal applies it.  An array prints its items
    joined by commas ([null] and [undefined] as nothing).  An object prints
    through its [toString]: the inherited one gives ["[object Object]"]; an
    own [toString] property from JSON is never callable, nor does [valueOf]
    then give a primitive, so the conversion throws a [TypeError]. *)
Fixpoint to_string (v : value) : completion string :=
  match v with
  | VUndefined => Normal "undefined"
  | VNull => Normal "null"
  | VBool true => Normal "true"
  | VBool false => Normal "false"
  | VNum n => Normal (num_to_string n)
  | VStr s => Normal s
  | VArr items =>
      match all_strings
              (map (fun x => match x with
                             | VUndefined | VNull => Normal EmptyString
                             | _ => to_string x
                             end) items) with
      | Normal parts => Normal (join "," parts)
      | Throw e => Throw e
      | Pending => Pending
      end
  | VObj fields =>
      match lookup "toString" fields with
      | Some _ => Throw (ErrorObj to_primitive_error)
      | None => Normal "[object Object]"
      end
  end.

Definition type_error_message (v : value) (k : string) : string :=
  "Cannot read properties of "
  ++ match v with
     | VNull => "null"
     | _ => "undefined"
     end
  ++ " (reading '" ++ k ++ "')".

(** [v.k].  Reading a property of [null] or [undefined] throws a
    [TypeError]; a missing property reads as [undefined].  The class reads
    [input], [success], [data], [error], [id] and [message] only, none of
    which a string, number, boolean or array has. *)
Definition get_prop (v : value) (k : string) : completion value :=
  match v with
  | VUndefined | VNull => Throw (ErrorObj (type_error_message v k))
  | VObj fields =>
      match lookup k fields with
      | Some x => Normal x
      | None => Normal VUndefined
      end
  | _ => Normal VUndefined
  end.

(** [error.message] on a caught value. *)
Definition message_of (e : thrown) : completion value :=
  match e with
  | ErrorObj m => Normal (VStr m)
  | Raised v => get_prop v "message"
  end.

(** What [JSON.stringify] keeps of a value: a property whose value is
    [undefined] is dropped and an [undefined] array item becomes [null]. *)
Fixpoint json_normalize (v : value) : value :=
  match v with
  | VArr items =>
      VArr (map (fun x => match json_normalize x with
                          | VUndefined => VNull
                          | y => y
                          end) items)
  | VObj fields =>
      VObj (flat_map (fun kv => match json_normalize (snd kv) with
                                | VUndefined => []
                                | y => [(fst kv, y)]
                                end) fields)
  | _ => v
  end.

(** A JSON-serializable value holds no [undefined]. *)
Fixpoint json_serializable (v : value) : bool :=
  match v with
  | VUndefined => false
  | VArr items => forallb json_serializable items
  | VObj fields => forallb (fun kv => json_serializable (snd kv)) fields
  | _ => true
  end.

End JS.

(** ** The instance and its environment *)

(** [FunctionOptions] *)
Record FunctionOptions : Type := {
  opt_name : string;
  opt_description : option string;
  opt_capabilities : option (list string);
  opt_platformUrl : option string;
  opt_autoRegister : option bool;
  opt_debug : option bool
}.

(** [FunctionHandler]: called with the input, awaited by the caller. *)
Definition FunctionHandler : Type := value -> completion value.

(** The [http.Server] that [app.listen] returns. *)
Record Server : Type := {
  server_port : Z;
  server_host : string;
  listening : bool
}.

(** The fields of [AgentFunction].  [functionId] is declared
    [string | null] and receives whatever the platform sent as [data.id]. *)
Record AgentFunction : Type := {
  name : string;
  description : string;
  capabilities : list string;
  platformUrl : string;
  autoRegister : bool;
  debug : bool;
  handler : option FunctionHandler;
  server : option Server;
  functionId : value;
  endpointUrl : option string
}.

Inductive level : Type := Log | Warn | Error.

(** What the instance does to the outside world, in order. *)
Inductive event : Type :=
| Console (l : level) (args : list value)
| ProcessOn (signal : string)
| ProcessExit (code : Z)
| HttpPost (url : string) (data : value) (timeout : Z)
| HttpDelete (url : string) (timeout : Z)
| Listen (port : Z) (host : string)
| Close
| Invoke (input : value).

(** The response axios resolves with. *)
Record AxiosResponse : Type := {
  status : Z;
  data : value
}.

(** The end of one axios request: a response, or a rejection with an error
    (connection refused, the 10 second timeout, a status axios rejects). *)
Inductive axios_result : Type :=
| Resolves (r : AxiosResponse)
| Rejects (message : string).

(** The Express response object: [res.status] sets the code, [res.json]
    sends the serialized payload. *)
Record Response : Type := {
  statusCode : Z;
  body : option value
}.

Module Res.
Definition fresh : Response := {| statusCode := 200; body := None |}.
Definition status (code : Z) (r : Response) : Response :=
  {| statusCode := code; body := body r |}.
Definition json (v : value) (r : Response) : Response :=
  {| statusCode := statusCode r; body := Some (JS.json_normalize v) |}.
End Res.

(** ** The monad of a method body: state, trace, exceptions *)

Definition M (A : Type) : Type :=
  AgentFunction -> completion A * AgentFunction * list event.

Definition ret {A} (a : A) : M A := fun s => (Normal a, s, []).

Definition bind {A B} (m : M A) (f : A -> M B) : M B :=
  fun s =>
    match m s with
    | (Normal a, s1, t1) => let '(r, s2, t2) := f a s1 in (r, s2, (t1 ++ t2)%list)
    | (Throw e, s1, t1) => (Throw e, s1, t1)
    | (Pending, s1, t1) => (Pending, s1, t1)
    end.

Definition throw {A} (e : thrown) : M A := fun s => (Throw e, s, []).

Definition never {A} : M A := fun s => (Pending, s, []).

(** [try { m } catch (error) { h error }] *)
Definition try_catch {A} (m : M A) (h : thrown -> M A) : M A :=
  fun s =>
    match m s with
    | (Throw e, s1, t1) => let '(r, s2, t2) := h e s1 in (r, s2, (t1 ++ t2)%list)
    | r => r
    end.

Definition lift {A} (c : completion A) : M A := fun s => (c, s, []).
Definition this : M AgentFunction := fun s => (Normal s, s, []).
Definition put (s' : AgentFunction) : M unit := fun _ => (Normal tt, s', []).
Definition emit (e : event) : M unit := fun s => (Normal tt, s, [e]).
Definition when (b : bool) (m : M unit) : M unit := if b then m else ret tt.

Declare Scope method_scope.
Delimit Scope method_scope with method.
Notation "x <- m ;; k" := (bind m (fun x => k))
  (at level 61, m at next level, right associativity) : method_scope.
Notation "m ;; k" := (bind m (fun _ => k))
  (at level 61, right associativity) : method_scope.
Local Open Scope method_scope.

Definition console (l : level) (args : list value) : M unit :=
  emit (Console l args).

Definition set_handler (h : option FunctionHandler) (s : AgentFunction) :=
  {| name := name s; description := description s;
     capabilities := capabilities s; platformUrl := platformUrl s;
     autoRegister := autoRegister s; debug := debug s;
     handler := h; server := server s;
     functionId := functionId s; endpointUrl := endpointUrl s |}.

Definition set_server (srv : option Server) (s : AgentFunction) :=
  {| name := name s; description := description s;
     capabilities := capabilities s; platformUrl := platformUrl s;
     autoRegister := autoRegister s; debug := debug s;
     handler := handler s; server := srv;
     functionId := functionId s; endpointUrl := endpointUrl s |}.

Definition set_functionId (id : value) (s : AgentFunction) :=
  {| name := name s; description := description s;
     capabilities := capabilities s; platformUrl := platformUrl s;
     autoRegister := autoRegister s; debug := debug s;
     handler := handler s; server := server s;
     functionId := id; endpointUrl := endpointUrl s |}.

Definition set_endpointUrl (u : option string) (s : AgentFunction) :=
  {| name := name s; description := description s;
     capabilities := capabilities s; platformUrl := platformUrl s;
     autoRegister := autoRegister s; debug := debug s;
     handler := handler s; server := server s;
     functionId := functionId s; endpointUrl := u |}.

Definition update (f : AgentFunction -> AgentFunction) : M unit :=
  s <- this ;; put (f s).

(** [axios.post(url, data, { timeout })] *)
Definition axios_post (url : string) (payload : value) (timeout : Z)
    (reply : axios_result) : M AxiosResponse :=
  emit (HttpPost url payload timeout) ;;
  match reply with
  | Resolves r => ret r
  | Rejects m => throw (ErrorObj m)
  end.

(** [axios.delete(url, { timeout })] *)
Definition axios_delete (url : string) (timeout : Z)
    (reply : axios_result) : M AxiosResponse :=
  emit (HttpDelete url timeout) ;;
  match reply with
  | Resolves r => ret r
  | Rejects m => throw (ErrorObj m)
  end.

(** ** The class [AgentFunction] *)

(** The default of [options.platformUrl], and the defaults of the [host]
    and [port] parameters of [registerWithPlatform] and [run]. *)
Definition default_platformUrl : string := "http://localhost:3000".
Definition default_host : string := "localhost".
Definition default_port : Z := 3001.

(** The fields as [constructor(options)] initialises them.  [x || d] takes
    [d] for a missing or falsy [x]; [autoRegister] is on unless it is given
    as [false]; the class-level initialisers set the other four to [null]. *)
Definition initial (options : FunctionOptions) : AgentFunction :=
  {| name := opt_name options;
     description :=
       match opt_description options with
       | Some d => d
       | None => EmptyString
       end;
     capabilities :=
       match opt_capabilities options with
       | Some c => c
       | None => []
       end;
     platformUrl :=
       match opt_platformUrl options with
       | Some u => if (u =? EmptyString)%string then default_platformUrl else u
       | None => default_platformUrl
       end;
     autoRegister :=
       match opt_autoRegister options with
       | Some false => false
       | _ => true
       end;
     debug :=
       match opt_debug options with
       | Some b => b
       | None => false
       end;
     handler := None;
     server := None;
     functionId := VNull;
     endpointUrl := None |}.

(** [constructor(options)]: initialises the fields, builds the Express
    application with its routes and registers the two signal listeners.  No
    statement of the constructor throws. *)
Definition constructor (options : FunctionOptions)
    : completion AgentFunction * list event :=
  (Normal (initial options), [ProcessOn "SIGINT"; ProcessOn "SIGTERM"]).

(** [setHandler(handler)] *)
Definition setHandler (h : FunctionHandler) : M unit :=
  update (set_handler (Some h)).

(** [await this.handler(inputData)] *)
Definition call_handler (h : FunctionHandler) (inputData : value) : M value :=
  emit (Invoke inputData) ;; lift (h inputData).

(** The three routes that [setupRoutes] installs, each as the response it
    sends for a request. *)
Module Routes.

(** [GET /health] *)
Definition get_health : M Response :=
  s <- this ;;
  ret (Res.json (VObj [("status", VStr "ok"); ("name", VStr (name s))])
         Res.fresh).

(** [req.body.input || req.body] *)
Definition input_of (req_body : value) : completion value :=
  match JS.get_prop req_body "input" with
  | Normal i => Normal (JS.or i req_body)
  | Throw e => Throw e
  | Pending => Pending
  end.

(** [POST /execute] with the parsed request body. *)
Definition post_execute (req_body : value) : M Response :=
  try_catch
    (s <- this ;;
     match handler s with
     | None =>
         ret (Res.json
                (VObj [("error", VStr "No handler defined for this function")])
                (Res.status 500 Res.fresh))
     | Some h =>
         inputData <- lift (input_of req_body) ;;
         when (debug s)
           (console Log [VStr "Executing function with input:"; inputData]) ;;
         result <- call_handler h inputData ;;
         when (debug s)
           (console Log [VStr "Function execution completed:"; result]) ;;
         ret (Res.json result Res.fresh)
     end)
    (fun error =>
       m <- lift (JS.message_of error) ;;
       console Error [VStr "Function execution error:"; m] ;;
       m' <- lift (JS.message_of error) ;;
       text <- lift (JS.to_string m') ;;
       ret (Res.json
              (VObj [("error", VStr ("Function execution failed: " ++ text))])
              (Res.status 500 Res.fresh))).

(** [GET /info] *)
Definition get_info : M Response :=
  s <- this ;;
  ret (Res.json
         (VObj [("name", VStr (name s));
                ("description", VStr (description s));
                ("capabilities", VArr (map VStr (capabilities s)));
                ("status", VStr "running")])
         Res.fresh).

End Routes.

(** [http://${host}:${port}/execute] *)
Definition endpoint_of (host : string) (port : Z) : string :=
  "http://" ++ host ++ ":" ++ JS.num_to_string port ++ "/execute".

(** [!this.endpointUrl] *)
Definition no_endpoint (u : option string) : bool :=
  match u with
  | None => true
  | Some u => (u =? EmptyString)%string
  end.

(** [response.status === 201 && response.data.success && response.data.data],
    as the condition of the [if]; [&&] reads its right operand only when the
    left one is truthy. *)
Definition accepted (response : AxiosResponse) : completion bool :=
  if status response =? 201 then
    match JS.get_prop (data response) "success" with
    | Normal success =>
        if JS.truthy success then
          match JS.get_prop (data response) "data" with
          | Normal d => Normal (JS.truthy d)
          | Throw e => Throw e
          | Pending => Pending
          end
        else Normal false
    | Throw e => Throw e
    | Pending => Pending
    end
  else Normal false.

(** [registerWithPlatform(host, port)], given how the one POST ends. *)
Definition registerWithPlatform (host : string) (port : Z)
    (reply : axios_result) : M value :=
  s <- this ;;
  when (no_endpoint (endpointUrl s))
    (update (set_endpointUrl (Some (endpoint_of host port)))) ;;
  s <- this ;;
  let registrationData :=
    VObj [("name", VStr (name s));
          ("description", VStr (description s));
          ("endpoint", match endpointUrl s with
                       | Some u => VStr u
                       | None => VNull
                       end);
          ("capabilities", VArr (map VStr (capabilities s)))] in
  try_catch
    (response <- axios_post (platformUrl s ++ "/api/agent-functions")
                   registrationData 10000 reply ;;
     ok <- lift (accepted response) ;;
     if ok : bool then
       d <- lift (JS.get_prop (data response) "data") ;;
       id <- lift (JS.get_prop d "id") ;;
       update (set_functionId id) ;;
       s' <- this ;;
       text <- lift (JS.to_string (functionId s')) ;;
       console Log [VStr ("Successfully registered function '" ++ name s'
                          ++ "' with ID: " ++ text)] ;;
       ret (data response)
     else
       err <- lift (JS.get_prop (data response) "error") ;;
       text <- lift (JS.to_string (JS.or err (VStr "Unknown error"))) ;;
       throw (ErrorObj ("Registration failed: " ++ text)))
    (fun error =>
       m <- lift (JS.message_of error) ;;
       console Error [VStr "Failed to register with platform:"; m] ;;
       m' <- lift (JS.message_of error) ;;
       text <- lift (JS.to_string m') ;;
       throw (ErrorObj ("Platform registration failed: " ++ text))).

(** [unregisterFromPlatform()], given how the one DELETE ends. *)
Definition unregisterFromPlatform (reply : axios_result) : M bool :=
  s <- this ;;
  if negb (JS.truthy (functionId s)) then
    console Warn [VStr "No function ID available, cannot unregister"] ;;
    ret false
  else
    try_catch
      (id <- lift (JS.to_string (functionId s)) ;;
       response <- axios_delete
                     (platformUrl s ++ "/api/agent-functions/" ++ id)
                     10000 reply ;;
       if status response =? 200 then
         console Log [VStr ("Successfully unregistered function '" ++ name s
                            ++ "'")] ;;
         ret true
       else
         console Error [VStr ("Failed to unregister: HTTP "
                              ++ JS.num_to_string (status response))] ;;
         ret false)
      (fun error =>
         m <- lift (JS.message_of error) ;;
         console Error [VStr "Failed to unregister from platform:"; m] ;;
         ret false).

(** The ports [net.Server.listen] accepts. *)
Definition valid_port (port : Z) : bool := (0 <=? port) && (port <=? 65535).

(** The message of the [RangeError] that [listen] throws for another port. *)
Definition bad_port_message (port : Z) : string :=
  "options.port should be >= 0 and < 65536. Received type number ("
  ++ JS.num_to_string port ++ ").".

(** [this.server = this.app.listen(port, host, callback)] inside the promise
    that [run] returns.  For a port outside 0..65535 the call throws a
    [RangeError] at once: nothing is stored and the promise is rejected.
    Otherwise the server object is stored at once; the callback, which logs
    and resolves the promise, runs only when the socket is bound, and
    otherwise the promise is never settled.  [bound] tells that the socket
    was bound, which happens for a port in range only. *)
Definition listen (port : Z) (host : string) (bound : bool) : M unit :=
  if bound || valid_port port then
    emit (Listen port host) ;;
    update (set_server (Some {| server_port := port; server_host := host;
                                listening := bound |})) ;;
    if bound then
      s <- this ;;
      console Log [VStr ("Agent function '" ++ name s ++ "' is running on port "
                         ++ JS.num_to_string port)]
    else never
  else throw (ErrorObj (bad_port_message port)).

(** [run(port, host)], given how the registration POST ends (if one is made)
    and whether the socket is bound. *)
Definition run (port : Z) (host : string) (reply : axios_result)
    (bound : bool) : M unit :=
  s <- this ;;
  match handler s with
  | None => throw (ErrorObj "No handler defined. Use setHandler() first.")
  | Some _ =>
      when (autoRegister s)
        (try_catch
           (_ <- registerWithPlatform host port reply ;; ret tt)
           (fun error =>
              m <- lift (JS.message_of error) ;;
              console Warn [VStr "Auto-registration failed:"; m] ;;
              console Log [VStr "Function will still run, but won't be registered with platform"])) ;;
      let at_ := host ++ ":" ++ JS.num_to_string port in
      console Log [VStr ("Starting " ++ name s ++ " on " ++ at_)] ;;
      console Log [VStr ("Health check: http://" ++ at_ ++ "/health")] ;;
      console Log [VStr ("Execute endpoint: http://" ++ at_ ++ "/execute")] ;;
      console Log [VStr ("Function info: http://" ++ at_ ++ "/info")] ;;
      listen port host bound
  end.

(** [stop()], given how the DELETE ends (if one is made). *)
Definition stop (reply : axios_result) : M unit :=
  s <- this ;;
  match server s with
  | Some srv =>
      emit Close ;;
      update (set_server (Some {| server_port := server_port srv;
                                  server_host := server_host srv;
                                  listening := false |}))
  | None => ret tt
  end ;;
  when (autoRegister s && JS.truthy (functionId s))
    (try_catch
       (_ <- unregisterFromPlatform reply ;; ret tt)
       (fun error =>
          m <- lift (JS.message_of error) ;;
          console Error [VStr "Failed to unregister during shutdown:"; m])).

(** [signalHandler(signal)]: nothing runs after [process.exit]. *)
Definition signalHandler (signal : string) (reply : axios_result) : M unit :=
  console Log [VStr (String (ascii_of_nat 10)
                       ("Shutting down agent function (" ++ signal ++ ")..."))] ;;
  stop reply ;;
  emit (ProcessExit 0) ;;
  never.

(** ** Lifecycles: sequences of calls on one instance *)

(** One use of the instance from outside: a method call together with what
    the environment answers, or a request to the execute route. *)
Inductive call : Type :=
| CallSetHandler (h : FunctionHandler)
| CallRegister (host : string) (port : Z) (reply : axios_result)
| CallUnregister (reply : axios_result)
| CallRun (port : Z) (host : string) (reply : axios_result) (bound : bool)
| CallStop (reply : axios_result)
| PostExecute (req_body : value).

(** The three components of running a method body from the state [s]. *)
Definition outcome {A} (m : M A) (s : AgentFunction) : completion A :=
  fst (fst (m s)).
Definition state_after {A} (m : M A) (s : AgentFunction) : AgentFunction :=
  snd (fst (m s)).
Definition trace {A} (m : M A) (s : AgentFunction) : list event :=
  snd (m s).

Definition effect {A} (m : M A) (s : AgentFunction)
    : AgentFunction * list event :=
  (state_after m s, trace m s).

Definition perform (c : call) : AgentFunction -> AgentFunction * list event :=
  match c with
  | CallSetHandler h => effect (setHandler h)
  | CallRegister host port reply => effect (registerWithPlatform host port reply)
  | CallUnregister reply => effect (unregisterFromPlatform reply)
  | CallRun port host reply bound => effect (run port host reply bound)
  | CallStop reply => effect (stop reply)
  | PostExecute req_body => effect (Routes.post_execute req_body)
  end.

Fixpoint perform_all (cs : list call) (s : AgentFunction) (tr : list event)
    : AgentFunction * list event :=
  match cs with
  | [] => (s, tr)
  | c :: rest =>
      let '(s1, t1) := perform c s in perform_all rest s1 (tr ++ t1)%list
  end.

(** State and trace after [new AgentFunction(options)] and the calls [cs]. *)
Definition history (options : FunctionOptions) (cs : list call)
    : AgentFunction * list event :=
  perform_all cs (initial options) (snd (constructor options)).

(** A call whose registration request the platform accepts. *)
Definition registers (c : call) : bool :=
  match c with
  | CallRegister _ _ (Resolves r) | CallRun _ _ (Resolves r) _ =>
      match accepted r with
      | Normal ok => ok
      | _ => false
      end
  | _ => false
  end.

(** The inputs the handler was called with, in order. *)
Fixpoint invocations (tr : list event) : list value :=
  match tr with
  | [] => []
  | Invoke x :: rest => x :: invocations rest
  | _ :: rest => invocations rest
  end.

(** The registration requests sent, in order. *)
Fixpoint posts (tr : list event) : list string :=
  match tr with
  | [] => []
  | HttpPost url _ _ :: rest => url :: posts rest
  | _ :: rest => posts rest
  end.

Definition is_listen (e : event) : bool :=
  match e with
  | Listen _ _ => true
  | _ => false
  end.

Definition is_exit (e : event) : bool :=
  match e with
  | ProcessExit _ => true
  | _ => false
  end.

(** [obj.k] is an own property of the object [obj]. *)
Definition has_field (obj : value) (k : string) : bool :=
  match obj with
  | VObj fields =>
      match JS.lookup k fields with
      | Some _ => true
      | None => false
      end
  | _ => false
  end.

(** [obj.k] can be read and is truthy. *)
Definition field_truthy (obj : value) (k : string) : bool :=
  match JS.get_prop obj k with
  | Normal x => JS.truthy x
  | _ => false
  end.

(** [obj.a.b], where it can be read. *)
Definition path2 (obj : value) (a b : string) : option value :=
  match JS.get_prop obj a with
  | Normal x =>
      match JS.get_prop x b with
      | Normal y => Some y
      | _ => None
      end
  | _ => None
  end.

(** ** Vocabulary of the statements *)

(** The instance as [registerWithPlatform(host, port)] leaves it before the
    request is sent: the endpoint URL is computed unless one is recorded. *)
Definition with_endpoint (host : string) (port : Z) (s : AgentFunction)
    : AgentFunction :=
  if no_endpoint (endpointUrl s)
  then set_endpointUrl (Some (endpoint_of host port)) s
  else s.

(** The registration request an instance sends. *)
Definition registration_request (s : AgentFunction) : event :=
  HttpPost (platformUrl s ++ "/api/agent-functions")
    (VObj [("name", VStr (name s));
           ("description", VStr (description s));
           ("endpoint", match endpointUrl s with
                        | Some u => VStr u
                        | None => VNull
                        end);
           ("capabilities", VArr (map VStr (capabilities s)))])
    10000.

(** The platform answers 201 with a body whose [success] and [data] are
    both truthy. *)
Definition platform_accepts (reply : axios_result) : bool :=
  match reply with
  | Resolves r =>
      (status r =? 201) && field_truthy (data r) "success"
      && field_truthy (data r) "data"
  | Rejects _ => false
  end.

(** The platform answers 201 with a body whose [success] is truthy and
    which has a [data] property. *)
Definition platform_answers_with_data (reply : axios_result) : bool :=
  match reply with
  | Resolves r =>
      (status r =? 201) && field_truthy (data r) "success"
      && has_field (data r) "data"
  | Rejects _ => false
  end.

(** A handler that wraps its input. *)
Definition echo : FunctionHandler := fun x => Normal (VObj [("echo", x)]).

(** A handler that throws [new Error("boom")]. *)
Definition boom : FunctionHandler := fun _ => Throw (ErrorObj "boom").

Definition echo_options : FunctionOptions :=
  {| opt_name := "Echo"; opt_description := None; opt_capabilities := None;
     opt_platformUrl := None; opt_autoRegister := None; opt_debug := None |}.

(** The reply [201 {success: true, data: {id: "X"}}]. *)
Definition created_X : axios_result :=
  Resolves {| status := 201;
              data := VObj [("success", VBool true);
                            ("data", VObj [("id", VStr "X")])] |}.

(** The reply [200 {}] to a DELETE. *)
Definition deleted : axios_result :=
  Resolves {| status := 200; data := VObj [] |}.

(** A connection that is refused. *)
Definition refused : axios_result :=
  Rejects "connect ECONNREFUSED 127.0.0.1:3000".

(** What [run] logs once registration is over, before it listens. *)
Definition startup_logs (s : AgentFunction) (port : Z) (host : string)
    : list event :=
  let at_ := host ++ ":" ++ JS.num_to_string port in
  [Console Log [VStr ("Starting " ++ name s ++ " on " ++ at_)];
   Console Log [VStr ("Health check: http://" ++ at_ ++ "/health")];
   Console Log [VStr ("Execute endpoint: http://" ++ at_ ++ "/execute")];
   Console Log [VStr ("Function info: http://" ++ at_ ++ "/info")]].

(** What the [catch] of [run] logs for a registration that threw. *)
Definition swallowed (o : completion value) : list event :=
  match o with
  | Throw e =>
      match JS.message_of e with
      | Normal m =>
          [Console Warn [VStr "Auto-registration failed:"; m];
           Console Log [VStr "Function will still run, but won't be registered with platform"]]
      | _ => []
      end
  | _ => []
  end.

(** What [listen] does when called with [port] and [host]. *)
Definition listening_events (s : AgentFunction) (port : Z) (host : string)
    (bound : bool) : list event :=
  if bound || valid_port port then
    Listen port host ::
    (if bound
     then [Console Log [VStr ("Agent function '" ++ name s
                              ++ "' is running on port "
                              ++ JS.num_to_string port)]]
     else [])
  else [].

(** How [listen] ends. *)
Definition listen_outcome (port : Z) (bound : bool) : completion unit :=
  if bound then Normal tt
  else if valid_port port then Pending
  else Throw (ErrorObj (bad_port_message port)).

(** The instance once [listen] has been called. *)
Definition listened (port : Z) (host : string) (bound : bool)
    (s : AgentFunction) : AgentFunction :=
  if bound || valid_port port
  then set_server (Some {| server_port := port; server_host := host;
                           listening := bound |}) s
  else s.

(** A template literal can print the value. *)
Definition printable (v : value) : bool :=
  match JS.to_string v with
  | Normal _ => true
  | _ => false
  end.

(** The [data.id] of a reply, if it is there, can be printed. *)
Definition id_printable (reply : axios_result) : bool :=
  match reply with
  | Resolves r =>
      match path2 (data r) "data" "id" with
      | Some id => printable id
      | None => true
      end
  | Rejects _ => true
  end.

(** How [registerWithPlatform] ends on an accepted reply with the
    identifier [id]: with the body, unless the success log cannot print the
    identifier. *)
Definition accepted_outcome (r : AxiosResponse) (id : value)
    : completion value :=
  match JS.to_string id with
  | Normal _ => Normal (data r)
  | _ => Throw (ErrorObj ("Platform registration failed: "
                          ++ JS.to_primitive_error))
  end.

(** What it logs then. *)
Definition accepted_log (s : AgentFunction) (id : value) : event :=
  match JS.to_string id with
  | Normal text =>
      Console Log [VStr ("Successfully registered function '" ++ name s
                         ++ "' with ID: " ++ text)]
  | _ =>
      Console Error [VStr "Failed to register with platform:";
                     VStr JS.to_primitive_error]
  end.

(** The message of what makes a registration fail on a reply that is not
    accepted: the axios error's message; the [TypeError]'s message when the
    body is [null] or [undefined] and reading [success] (for a 201) or [error]
    throws; otherwise ["Registration failed: "] and the body's [error], or
    ["Unknown error"] for a falsy one, or again a [TypeError]'s message when
    that [error] cannot be printed. *)
Definition registration_cause (reply : axios_result) : string :=
  match reply with
  | Rejects m => m
  | Resolves r =>
      match data r with
      | VNull | VUndefined =>
          JS.type_error_message (data r)
            (if status r =? 201 then "success" else "error")
      | body =>
          match JS.get_prop body "error" with
          | Normal err =>
              match JS.to_string (JS.or err (VStr "Unknown error")) with
              | Normal text => "Registration failed: " ++ text
              | _ => JS.to_primitive_error
              end
          | _ => JS.to_primitive_error
          end
      end
  end.

(** An identifier is recorded only together with an endpoint URL. *)
Definition record_has_endpoint (s : AgentFunction) : Prop :=
  functionId s = VNull \/ no_endpoint (endpointUrl s) = false.

(** Induction on values through arrays and objects. *)
Section ValueInduction.
Variable P : value -> Prop.
Hypothesis P_undefined : P VUndefined.
Hypothesis P_null : P VNull.
Hypothesis P_bool : forall b, P (VBool b).
Hypothesis P_num : forall n, P (VNum n).
Hypothesis P_str : forall s, P (VStr s).
Hypothesis P_arr : forall items, Forall P items -> P (VArr items).
Hypothesis P_obj :
  forall fields, Forall (fun kv => P (snd kv)) fields -> P (VObj fields).

Fixpoint value_nested_ind (v : value) : P v :=
  match v with
  | VUndefined => P_undefined
  | VNull => P_null
  | VBool b => P_bool b
  | VNum n => P_num n
  | VStr s => P_str s
  | VArr items =>
      P_arr items ((fix all (l : list value) : Forall P l :=
                match l with
                | [] => Forall_nil P
                | x :: rest => Forall_cons x (value_nested_ind x) (all rest)
                end) items)
  | VObj fields =>
      P_obj fields ((fix all (l : list (string * value))
                : Forall (fun kv => P (snd kv)) l :=
                match l with
                | [] => Forall_nil _
                | kv :: rest =>
                    Forall_cons kv (value_nested_ind (snd kv)) (all rest)
                end) fields)
  end.
End ValueInduction.

(** ** The convenience function and further vocabulary *)

(** [Omit<FunctionOptions, 'name'>], the options of [createFunction]. *)
Record OtherOptions : Type := {
  other_description : option string;
  other_capabilities : option (list string);
  other_platformUrl : option string;
  other_autoRegister : option bool;
  other_debug : option bool
}.

(** The default [{}] of [createFunction]'s third parameter. *)
Definition no_options : OtherOptions :=
  {| other_description := None; other_capabilities := None;
     other_platformUrl := None; other_autoRegister := None;
     other_debug := None |}.

(** [{ name, ...options }] *)
Definition spread_name (n : string) (options : OtherOptions) : FunctionOptions :=
  {| opt_name := n;
     opt_description := other_description options;
     opt_capabilities := other_capabilities options;
     opt_platformUrl := other_platformUrl options;
     opt_autoRegister := other_autoRegister options;
     opt_debug := other_debug options |}.

(** [createFunction(name, handler, options)]: construct, attach, return. *)
Definition createFunction (n : string) (h : FunctionHandler)
    (options : OtherOptions) : completion AgentFunction * list event :=
  match constructor (spread_name n options) with
  | (Normal agentFunction, t1) =>
      match setHandler h agentFunction with
      | (Normal _, s, t2) => (Normal s, (t1 ++ t2)%list)
      | (Throw e, _, t2) => (Throw e, (t1 ++ t2)%list)
      | (Pending, _, t2) => (Pending, (t1 ++ t2)%list)
      end
  | (Throw e, t1) => (Throw e, t1)
  | (Pending, t1) => (Pending, t1)
  end.

(** The six fields the constructor fixes. *)
Definition same_config (s s' : AgentFunction) : Prop :=
  name s' = name s /\ description s' = description s /\
  capabilities s' = capabilities s /\ platformUrl s' = platformUrl s /\
  autoRegister s' = autoRegister s /\ debug s' = debug s.

Definition set_debug (d : bool) (s : AgentFunction) :=
  {| name := name s; description := description s;
     capabilities := capabilities s; platformUrl := platformUrl s;
     autoRegister := autoRegister s; debug := d;
     handler := handler s; server := server s;
     functionId := functionId s; endpointUrl := endpointUrl s |}.

(** The deregistration requests sent, in order. *)
Fixpoint deletes (tr : list event) : list string :=
  match tr with
  | [] => []
  | HttpDelete url _ :: rest => url :: deletes rest
  | _ :: rest => deletes rest
  end.

(** Events that stay inside the process: console output and handler calls. *)
Definition is_local (e : event) : bool :=
  match e with
  | Console _ _ | Invoke _ => true
  | _ => false
  end.

Definition is_set_handler (c : call) : bool :=
  match c with
  | CallSetHandler _ => true
  | _ => false
  end.

(** [${this.platformUrl}/api/agent-functions/${this.functionId}], for the
    printed identifier [id]. *)
Definition unregister_url (s : AgentFunction) (id : string) : string :=
  platformUrl s ++ "/api/agent-functions/" ++ id.

(** What [unregisterFromPlatform] does and logs. *)
Definition unregister_events (reply : axios_result) (s : AgentFunction)
    : list event :=
  if JS.truthy (functionId s) then
    match JS.to_string (functionId s) with
    | Normal id =>
        [HttpDelete (unregister_url s id) 10000;
         match reply with
         | Resolves r =>
             if status r =? 200
             then Console Log [VStr ("Successfully unregistered function '"
                                     ++ name s ++ "'")]
             else Console Error [VStr ("Failed to unregister: HTTP "
                                       ++ JS.num_to_string (status r))]
         | Rejects m =>
             Console Error [VStr "Failed to unregister from platform:"; VStr m]
         end]
    | _ =>
        [Console Error [VStr "Failed to unregister from platform:";
                        VStr JS.to_primitive_error]]
    end
  else [Console Warn [VStr "No function ID available, cannot unregister"]].

(** What [unregisterFromPlatform] returns. *)
Definition unregister_result (reply : axios_result) (s : AgentFunction) : bool :=
  JS.truthy (functionId s) && printable (functionId s)
  && match reply with
     | Resolves r => status r =? 200
     | Rejects _ => false
     end.

(** The DELETE requests of one deregistration attempt. *)
Definition unregister_deletes (s : AgentFunction) : list string :=
  if JS.truthy (functionId s) then
    match JS.to_string (functionId s) with
    | Normal id => [unregister_url s id]
    | _ => []
    end
  else [].

(** The instance once [stop] has closed the stored server. *)
Definition closed (s : AgentFunction) : AgentFunction :=
  match server s with
  | Some srv =>
      set_server (Some {| server_port := server_port srv;
                          server_host := server_host srv;
                          listening := false |}) s
  | None => s
  end.

(** [options.platformUrl || 'http://localhost:3000'] *)
Definition platform_of (options : FunctionOptions) : string :=
  match opt_platformUrl options with
  | Some u => if (u =? EmptyString)%string then default_platformUrl else u
  | None => default_platformUrl
  end.

(** The handler that the calls [cs] leave attached to an instance that had
    [h0]: the one of the latest [setHandler]. *)
Definition attached (cs : list call) (h0 : option FunctionHandler)
    : option FunctionHandler :=
  fold_left (fun acc c => match c with
                          | CallSetHandler h => Some h
                          | _ => acc
                          end) cs h0.

(** An event that is no outbound request, or one to the platform at
    [base] with the 10 second timeout: the registration POST to
    [base/api/agent-functions], a DELETE below [base/api/agent-functions/]. *)
Definition request_ok (base : string) (e : event) : bool :=
  match e with
  | HttpPost url _ timeout =>
      (url =? base ++ "/api/agent-functions")%string && (timeout =? 10000)
  | HttpDelete url timeout =>
      String.prefix (base ++ "/api/agent-functions/") url && (timeout =? 10000)
  | _ => true
  end.

Definition is_post_execute (c : call) : bool :=
  match c with
  | PostExecute _ => true
  | _ => false
  end.

Definition is_run (c : call) : bool :=
  match c with
  | CallRun _ _ _ _ => true
  | _ => false
  end.

(** * Properties *)

(** ** Values *)

Lemma get_prop_cases (v : value) (k : string) :
  (exists x, JS.get_prop v k = Normal x) \/
  JS.get_prop v k = Throw (ErrorObj (JS.type_error_message v k)).
Proof.
  destruct v; simpl; eauto.
  destruct (JS.lookup k fields); eauto.
Qed.

Lemma get_prop_truthy (v : value) (k : string) :
  JS.truthy v = true -> exists x, JS.get_prop v k = Normal x.
Proof.
  destruct v; simpl; try discriminate; eauto.
  destruct (JS.lookup k fields); eauto.
Qed.

(** Serialization loses nothing of a value that holds no [undefined]. *)
Lemma json_normalize_serializable (v : value) :
  JS.json_serializable v = true -> JS.json_normalize v = v.
Proof.
  induction v as [ | | b | n | s | items IH | fields IH ] using value_nested_ind;
    simpl; intro Hs; try reflexivity.
  - f_equal.
    induction IH as [ | x rest Hx _ IHrest ]; simpl in *; [reflexivity | ].
    apply andb_true_iff in Hs as [Hx' Hrest].
    rewrite (Hx Hx'), (IHrest Hrest).
    destruct x; simpl in Hx'; try reflexivity; discriminate.
  - f_equal.
    induction IH as [ | [k x] rest Hx _ IHrest ]; simpl in *; [reflexivity | ].
    apply andb_true_iff in Hs as [Hx' Hrest].
    rewrite (Hx Hx'), (IHrest Hrest).
    destruct x; simpl in Hx'; try reflexivity; discriminate.
Qed.


(** ** The execute route *)

Ltac unfold_monad :=
  unfold outcome, state_after, trace, effect, call_handler, console, update,
    when, bind, try_catch, ret, throw, never, lift, this, put, emit in *.

Lemma input_of_envelope (X : value) :
  Routes.input_of (VObj [("input", X)]) = Normal (JS.or X (VObj [("input", X)])).
Proof. reflexivity. Qed.



(** X25: when the attached handler throws (or rejects with) a value [e]
    during a POST to /execute, [e.message] reads as some [m] and [m] prints
    as [text] (for an [Error], its message), the response has status 500 and
    body [{error: "Function execution failed: " + text}]; the route completes
    and does not exit the process. *)
Theorem execute_reports_handler_failure :
  forall (s : AgentFunction) (h : FunctionHandler)
         (req_body inputData : value) (e : thrown) (m : value) (text : string),
    handler s = Some h ->
    Routes.input_of req_body = Normal inputData ->
    h inputData = Throw e ->
    JS.message_of e = Normal m ->
    JS.to_string m = Normal text ->
    outcome (Routes.post_execute req_body) s
      = Normal {| statusCode := 500;
                  body := Some (VObj [("error",
                                       VStr ("Function execution failed: "
                                             ++ text))]) |}
    /\ existsb is_exit (trace (Routes.post_execute req_body) s) = false.
Proof.
  intros s h req_body inputData e m text Hh Hin Hthrow Hm Htext.
  unfold Routes.post_execute. unfold_monad.
  rewrite Hh, Hin. simpl.
  destruct (debug s); simpl; rewrite Hthrow; simpl; rewrite Hm; simpl;
    rewrite Htext; split; reflexivity.
Qed.

Lemma execute_reports_handler_failure_witness :
  outcome (Routes.post_execute (VObj [("input", VObj [("a", VNum 1)])]))
    (set_handler (Some boom) (initial echo_options))
  = Normal {| statusCode := 500;
              body := Some (VObj [("error",
                                   VStr "Function execution failed: boom")]) |}.
Proof.
  apply (execute_reports_handler_failure
           (set_handler (Some boom) (initial echo_options)) boom
           (VObj [("input", VObj [("a", VNum 1)])])
           (VObj [("a", VNum 1)]) (ErrorObj "boom") (VStr "boom") "boom"
           eq_refl eq_refl eq_refl eq_refl eq_refl).
Defined.

(** C5: a handler whose promise is rejected with [null] fails, and the
    route sends no response at all, where the claim promises a 500: reading
    [error.message] throws a [TypeError] inside the [catch], so the route's
    own promise is rejected with it and nothing answers the request. *)
Theorem execute_null_rejection_unanswered :
  outcome (Routes.post_execute (VObj [("input", VObj [("a", VNum 1)])]))
    (set_handler (Some (fun _ => Throw (Raised VNull))) (initial echo_options))
  = Throw (ErrorObj "Cannot read properties of null (reading 'message')")
  /\ forall r : Response,
       outcome (Routes.post_execute (VObj [("input", VObj [("a", VNum 1)])]))
         (set_handler (Some (fun _ => Throw (Raised VNull)))
            (initial echo_options))
       <> Normal r.
Proof. split; [ reflexivity | intros r H; discriminate H ]. Qed.

(** The fallback of [req.body.input || req.body] is taken for every falsy
    [input], present or not. *)
Lemma input_of_falsy (X : value) :
  JS.truthy X = false ->
  Routes.input_of (VObj [("input", X)]) = Normal (VObj [("input", X)]).
Proof. intro HX. rewrite input_of_envelope. unfold JS.or. now rewrite HX. Qed.

Lemma input_of_truthy (X : value) :
  JS.truthy X = true -> Routes.input_of (VObj [("input", X)]) = Normal X.
Proof. intro HX. rewrite input_of_envelope. unfold JS.or. now rewrite HX. Qed.

(** C6: a POST to /execute with body [{input: 0}], where the input field is
    present, calls the handler with the whole body [{input: 0}] and not with
    [0]: the echo handler answers [{echo: {input: 0}}]. *)
Theorem execute_zero_input_passes_body :
  has_field (VObj [("input", VNum 0)]) "input" = true /\
  invocations (trace (Routes.post_execute (VObj [("input", VNum 0)]))
                 (set_handler (Some echo) (initial echo_options)))
    = [VObj [("input", VNum 0)]] /\
  outcome (Routes.post_execute (VObj [("input", VNum 0)]))
    (set_handler (Some echo) (initial echo_options))
    = Normal {| statusCode := 200;
                body := Some (VObj [("echo", VObj [("input", VNum 0)])]) |}.
Proof. repeat split; reflexivity. Qed.

(** ** Starting without a handler *)

Lemma run_without_handler_state s port host reply bound :
  handler s = None ->
  run port host reply bound s
    = (Throw (ErrorObj "No handler defined. Use setHandler() first."), s, []).
Proof.
  intro Hh. unfold run. unfold_monad. rewrite Hh. reflexivity.
Qed.

(** C8: [run] on an instance without a handler throws the configuration
    error, leaves every field as it was (no server is stored) and does
    nothing observable: no listen, no registration request. *)
Theorem run_without_handler :
  forall (s : AgentFunction) (port : Z) (host : string)
         (reply : axios_result) (bound : bool),
    handler s = None ->
    run port host reply bound s
      = (Throw (ErrorObj "No handler defined. Use setHandler() first."), s, []).
Proof.
  intros s port host reply bound Hh.
  apply run_without_handler_state. exact Hh.
Qed.

Lemma run_without_handler_witness :
  run 3001 "localhost" created_X true (initial echo_options)
    = (Throw (ErrorObj "No handler defined. Use setHandler() first."),
       initial echo_options, []).
Proof.
  apply (run_without_handler (initial echo_options) 3001 "localhost"
           created_X true eq_refl).
Defined.

(** ** Construction *)

(** C9 as stated fails: construction with an empty name succeeds. *)
Lemma constructor_accepts_empty_name :
  let options :=
    {| opt_name := EmptyString; opt_description := None;
       opt_capabilities := None; opt_platformUrl := None;
       opt_autoRegister := None; opt_debug := None |} in
  opt_name options = EmptyString /\
  fst (constructor options) = Normal (initial options) /\
  forall e, fst (constructor options) <> Throw e.
Proof. simpl. repeat split. intros e H. discriminate H. Qed.

(** C9, amended: the constructor validates nothing; for every options
    object, also one with an empty name, construction succeeds and the
    instance carries the name as given. *)
Theorem constructor_total :
  forall options : FunctionOptions,
    exists s, fst (constructor options) = Normal s /\
              name s = opt_name options.
Proof. intro options. exists (initial options). split; reflexivity. Qed.

(** ** Registration *)

Lemma accepted_cases (r : AxiosResponse) :
  (exists ok, accepted r = Normal ok) \/
  (exists m, accepted r = Throw (ErrorObj m)).
Proof.
  unfold accepted.
  destruct (status r =? 201); [ | eauto ].
  destruct (get_prop_cases (data r) "success") as [[x ->] | ->]; [ | eauto ].
  destruct (JS.truthy x); [ | eauto ].
  destruct (get_prop_cases (data r) "data") as [[d ->] | ->]; eauto.
Qed.

(** The condition of the [if] holds exactly for a 201 whose [success] and
    [data] are truthy. *)
Lemma accepted_iff (r : AxiosResponse) :
  accepted r = Normal true <-> platform_accepts (Resolves r) = true.
Proof.
  unfold accepted, platform_accepts, field_truthy.
  destruct (status r =? 201); simpl; [ | split; discriminate ].
  destruct (JS.get_prop (data r) "success") as [x | e | ]; simpl;
    try (split; discriminate).
  destruct (JS.truthy x); simpl; [ | split; discriminate ].
  destruct (JS.get_prop (data r) "data") as [d | e | ]; simpl;
    try (split; discriminate).
  split; [ now intros [= ->] | now intros -> ].
Qed.

Lemma with_endpoint_functionId host port s :
  functionId (with_endpoint host port s) = functionId s.
Proof. unfold with_endpoint. now destruct (no_endpoint (endpointUrl s)). Qed.

Lemma with_endpoint_recorded host port s :
  no_endpoint (endpointUrl (with_endpoint host port s)) = false.
Proof.
  unfold with_endpoint.
  destruct (no_endpoint (endpointUrl s)) eqn:E; [ reflexivity | exact E ].
Qed.

Lemma all_strings_cases (l : list (completion string)) :
  Forall (fun c => (exists text, c = Normal text)
                   \/ c = Throw (ErrorObj JS.to_primitive_error)) l ->
  (exists parts, JS.all_strings l = Normal parts)
  \/ JS.all_strings l = Throw (ErrorObj JS.to_primitive_error).
Proof.
  induction 1 as [ | c rest [[text ->] | ->] _ [[parts IH] | IH] ]; simpl;
    rewrite ?IH; eauto.
Qed.

(** A template literal prints a value or throws the [TypeError] of an
    object that cannot be converted. *)
Lemma to_string_cases (v : value) :
  (exists text, JS.to_string v = Normal text)
  \/ JS.to_string v = Throw (ErrorObj JS.to_primitive_error).
Proof.
  induction v as [ | | b | n | s | items IH | fields IH ] using value_nested_ind;
    simpl; eauto.
  - destruct b; eauto.
  - match goal with
    | |- context [JS.all_strings ?l] =>
        destruct (all_strings_cases l) as [[parts ->] | ->]; eauto
    end.
    induction IH as [ | x rest Hx _ IHrest ]; simpl; constructor; auto.
    destruct x; eauto.
  - destruct (JS.lookup "toString" fields); eauto.
Qed.

Lemma with_endpoint_name host port s :
  name (with_endpoint host port s) = name s.
Proof. unfold with_endpoint. now destruct (no_endpoint (endpointUrl s)). Qed.

(** The accepted path: the identifier is stored, then printed for the log,
    then the body is returned. *)
Lemma register_accepted host port r s :
  accepted r = Normal true ->
  exists id,
    path2 (data r) "data" "id" = Some id /\
    registerWithPlatform host port (Resolves r) s
      = (accepted_outcome r id,
         set_functionId id (with_endpoint host port s),
         [registration_request (with_endpoint host port s);
          accepted_log s id]).
Proof.
  intro Hacc.
  assert (Hd : exists d, JS.get_prop (data r) "data" = Normal d
                         /\ JS.truthy d = true).
  { apply accepted_iff in Hacc. unfold platform_accepts, field_truthy in Hacc.
    apply andb_true_iff in Hacc as [_ Hacc].
    destruct (JS.get_prop (data r) "data") as [d | | ]; try discriminate.
    eauto. }
  destruct Hd as [d [Hd Htruthy]].
  destruct (get_prop_truthy d "id" Htruthy) as [id Hid].
  exists id. split.
  - unfold path2. now rewrite Hd, Hid.
  - unfold registerWithPlatform, with_endpoint, registration_request,
      accepted_outcome, accepted_log, axios_post.
    unfold_monad.
    destruct (to_string_cases id) as [[text Htext] | Htext];
      destruct (no_endpoint (endpointUrl s)); simpl;
      rewrite Hacc; simpl; rewrite Hd; simpl; rewrite Hid; simpl;
      rewrite Htext; reflexivity.
Qed.

(** Every other path: one request, one logged error, one thrown
    registration error around the cause's message; the identifier is not
    touched. *)
Lemma register_rejected host port reply s :
  platform_accepts reply = false ->
  registerWithPlatform host port reply s
    = (Throw (ErrorObj ("Platform registration failed: "
                        ++ registration_cause reply)),
       with_endpoint host port s,
       [registration_request (with_endpoint host port s);
        Console Error [VStr "Failed to register with platform:";
                       VStr (registration_cause reply)]]).
Proof.
  intro Hrej.
  unfold registerWithPlatform, with_endpoint, registration_request, axios_post.
  unfold_monad.
  destruct reply as [r | m];
    [ | destruct (no_endpoint (endpointUrl s)); reflexivity ].
  assert (Hok : forall ok, accepted r = Normal ok -> ok = false).
  { intros [ | ] Hok; [ | reflexivity ].
    apply accepted_iff in Hok. congruence. }
  unfold registration_cause.
  destruct (data r) as [ | | b | n | str | items | fields ] eqn:Hbody.
  - unfold accepted. rewrite Hbody.
    destruct (no_endpoint (endpointUrl s)); simpl;
      destruct (status r =? 201); reflexivity.
  - unfold accepted. rewrite Hbody.
    destruct (no_endpoint (endpointUrl s)); simpl;
      destruct (status r =? 201); reflexivity.
  - unfold accepted. rewrite Hbody.
    destruct (no_endpoint (endpointUrl s)); simpl;
      destruct (status r =? 201); reflexivity.
  - unfold accepted. rewrite Hbody.
    destruct (no_endpoint (endpointUrl s)); simpl;
      destruct (status r =? 201); reflexivity.
  - unfold accepted. rewrite Hbody.
    destruct (no_endpoint (endpointUrl s)); simpl;
      destruct (status r =? 201); reflexivity.
  - unfold accepted. rewrite Hbody.
    destruct (no_endpoint (endpointUrl s)); simpl;
      destruct (status r =? 201); reflexivity.
  - destruct (accepted_cases r) as [[ok Hacc] | [m Hacc]].
    + rewrite (Hok ok Hacc) in Hacc.
      assert (Herr : exists err, JS.get_prop (VObj fields) "error" = Normal err).
      { simpl. destruct (JS.lookup "error" fields); eauto. }
      destruct Herr as [err Herr]. cbv beta iota. rewrite Herr.
      destruct (to_string_cases (JS.or err (VStr "Unknown error")))
        as [[text Htext] | Htext];
        destruct (no_endpoint (endpointUrl s)); simpl;
        rewrite Hacc; simpl; rewrite Htext; reflexivity.
    + exfalso. unfold accepted in Hacc. rewrite Hbody in Hacc. simpl in Hacc.
      destruct (status r =? 201); [ | discriminate ].
      destruct (JS.lookup "success" fields) as [x | ];
        [ destruct (JS.truthy x); [ | discriminate ] | discriminate ].
      destruct (JS.lookup "data" fields); discriminate.
Qed.

(** [registerWithPlatform] on an accepted reply and on any other. *)
Lemma register_outcome host port reply s :
  (platform_accepts reply = true /\
   exists r id,
     reply = Resolves r /\ path2 (data r) "data" "id" = Some id /\
     registerWithPlatform host port reply s
       = (accepted_outcome r id,
          set_functionId id (with_endpoint host port s),
          [registration_request (with_endpoint host port s);
           accepted_log s id]))
  \/
  (platform_accepts reply = false /\
   exists cause,
     registerWithPlatform host port reply s
       = (Throw (ErrorObj ("Platform registration failed: " ++ cause)),
          with_endpoint host port s,
          [registration_request (with_endpoint host port s);
           Console Error [VStr "Failed to register with platform:";
                          VStr cause]])
     /\ cause = registration_cause reply).
Proof.
  destruct (platform_accepts reply) eqn:Hacc.
  - left. split; [ reflexivity | ].
    destruct reply as [r | m]; [ | discriminate ].
    apply accepted_iff in Hacc.
    destruct (register_accepted host port r s Hacc) as [id [Hid Heq]].
    exists r, id. auto.
  - right. split; [ reflexivity | ].
    exists (registration_cause reply). split; [ | reflexivity ].
    apply register_rejected. exact Hacc.
Qed.

Lemma accepted_log_console s id :
  exists l args, accepted_log s id = Console l args.
Proof. unfold accepted_log. destruct (JS.to_string id); eauto. Qed.

(** The outcome of [registerWithPlatform] and what [run] logs for it. *)
Lemma register_outcome_shape host port reply s :
  (exists body, outcome (registerWithPlatform host port reply) s = Normal body
                /\ swallowed (outcome (registerWithPlatform host port reply) s)
                   = [])
  \/
  (exists m, outcome (registerWithPlatform host port reply) s
             = Throw (ErrorObj m)
             /\ swallowed (outcome (registerWithPlatform host port reply) s)
                = [Console Warn [VStr "Auto-registration failed:"; VStr m];
                   Console Log [VStr "Function will still run, but won't be registered with platform"]]).
Proof.
  unfold outcome.
  destruct (register_outcome host port reply s)
    as [[_ [r [id [_ [_ Heq]]]]] | [_ [cause [Heq _]]]]; rewrite Heq; simpl.
  - unfold accepted_outcome. destruct (JS.to_string id); simpl; eauto.
  - eauto.
Qed.

(** ** Start and stop *)

(** [run] with a handler attached: registration (when enabled) comes first
    and whatever it throws is swallowed; then the listener is started. *)
Lemma run_with_handler s h port host reply bound :
  handler s = Some h ->
  run port host reply bound s
    = (listen_outcome port bound,
       listened port host bound
         (if autoRegister s
          then state_after (registerWithPlatform host port reply) s
          else s),
       ((if autoRegister s
         then trace (registerWithPlatform host port reply) s
              ++ swallowed (outcome (registerWithPlatform host port reply) s)
         else [])
        ++ startup_logs s port host
        ++ listening_events s port host bound)%list).
Proof.
  intro Hh.
  unfold run, listen, startup_logs, listening_events, listen_outcome, listened.
  unfold_monad.
  rewrite Hh.
  destruct (autoRegister s); simpl.
  - destruct (register_outcome host port reply s)
      as [[_ [r [id [_ [_ Heq]]]]] | [_ [cause [Heq _]]]];
      rewrite Heq; unfold accepted_outcome;
      try (destruct (to_string_cases id) as [[text Htext] | Htext];
           rewrite Htext);
      destruct bound; destruct (valid_port port); cbn;
      rewrite ?with_endpoint_name; reflexivity.
  - destruct bound; destruct (valid_port port); reflexivity.
Qed.

(** ** Claims on registration *)

(** C4 as stated fails: the platform answers 201 with a truthy [success]
    and a [data] property that is present ([false]), and registration
    throws. *)
Lemma register_rejects_present_falsy_data :
  let reply :=
    Resolves {| status := 201;
                data := VObj [("success", VBool true);
                              ("data", VBool false)] |} in
  platform_answers_with_data reply = true /\
  outcome (registerWithPlatform "localhost" 3001 reply) (initial echo_options)
    = Throw (ErrorObj "Platform registration failed: Registration failed: Unknown error").
Proof. split; reflexivity. Qed.

Lemma id_printable_accepted r id :
  id_printable (Resolves r) = true ->
  path2 (data r) "data" "id" = Some id ->
  exists text, JS.to_string id = Normal text.
Proof.
  unfold id_printable, printable. intros Hp Hid. rewrite Hid in Hp.
  destruct (JS.to_string id) as [text | | ]; [ eauto | discriminate.. ].
Qed.

(** C4, amended: for a reply whose [data.id], if any, a template literal
    can print, [registerWithPlatform] returns exactly when the platform
    answers 201 with a body whose [success] and [data] are both truthy; it
    then stores [data.id] and returns the body.  On every other reply it
    throws an error whose message is ["Platform registration failed: "]
    followed by the cause's message, and leaves the identifier as it was.
    Either way one request is sent. *)
Theorem register_succeeds_iff_accepted :
  forall (s : AgentFunction) (host : string) (port : Z) (reply : axios_result),
    id_printable reply = true ->
    ((exists body, outcome (registerWithPlatform host port reply) s = Normal body)
     <-> platform_accepts reply = true)
    /\ (platform_accepts reply = true ->
        exists r id,
          reply = Resolves r /\
          path2 (data r) "data" "id" = Some id /\
          outcome (registerWithPlatform host port reply) s = Normal (data r) /\
          functionId (state_after (registerWithPlatform host port reply) s) = id)
    /\ (platform_accepts reply = false ->
        outcome (registerWithPlatform host port reply) s
          = Throw (ErrorObj ("Platform registration failed: "
                             ++ registration_cause reply)) /\
        functionId (state_after (registerWithPlatform host port reply) s)
          = functionId s)
    /\ posts (trace (registerWithPlatform host port reply) s)
       = [platformUrl s ++ "/api/agent-functions"].
Proof.
  intros s host port reply Hprint.
  unfold outcome, state_after, trace.
  destruct (register_outcome host port reply s)
    as [[Hacc [r [id [Hreply [Hid Heq]]]]] | [Hacc [cause [Heq Hcause]]]];
    rewrite Heq, Hacc; simpl.
  - subst reply.
    destruct (id_printable_accepted r id Hprint Hid) as [text Htext].
    unfold accepted_outcome, accepted_log. rewrite Htext.
    repeat split; eauto.
    + exists r, id. auto.
    + discriminate.
    + discriminate.
    + unfold with_endpoint. now destruct (no_endpoint (endpointUrl s)).
  - subst cause. repeat split; eauto.
    + intros [body Hbody]. discriminate.
    + discriminate.
    + discriminate.
    + apply with_endpoint_functionId.
    + unfold with_endpoint. now destruct (no_endpoint (endpointUrl s)).
Qed.

Lemma register_succeeds_iff_accepted_witness :
  functionId (state_after (registerWithPlatform "localhost" 3001 created_X)
                (initial echo_options)) = VStr "X"
  /\ outcome (registerWithPlatform "localhost" 3001 refused)
       (initial echo_options)
     = Throw (ErrorObj "Platform registration failed: connect ECONNREFUSED 127.0.0.1:3000").
Proof.
  split.
  - destruct (register_succeeds_iff_accepted (initial echo_options)
                "localhost" 3001 created_X eq_refl) as [_ [Hok _]].
    destruct (Hok eq_refl) as [r [id [Hr [Hid [_ Hfid]]]]].
    injection Hr as <-. vm_compute in Hid. injection Hid as <-. exact Hfid.
  - destruct (register_succeeds_iff_accepted (initial echo_options)
                "localhost" 3001 refused eq_refl) as [_ [_ [Hfail _]]].
    exact (proj1 (Hfail eq_refl)).
Defined.

(** When [registerWithPlatform] throws on a reply that is not accepted,
    [functionId] is what it was before the call, while an endpoint URL is
    recorded (computed by this call if none was). *)
Lemma register_refused_keeps_functionId host port reply s :
  platform_accepts reply = false ->
  functionId (state_after (registerWithPlatform host port reply) s)
    = functionId s
  /\ endpointUrl (state_after (registerWithPlatform host port reply) s)
     = (if no_endpoint (endpointUrl s)
        then Some (endpoint_of host port)
        else endpointUrl s).
Proof.
  intro Hrej. unfold state_after.
  rewrite (register_rejected host port reply s Hrej). simpl.
  split; [ apply with_endpoint_functionId | ].
  unfold with_endpoint. now destruct (no_endpoint (endpointUrl s)).
Qed.

(** C10: the platform accepts with [data.id = {toString: 1}], an
    identifier that a template literal cannot print.  The identifier is
    assigned, then the success log throws, and [registerWithPlatform] fails
    with the identifier changed from [null] to that object, where the claim
    says a failing call leaves it unchanged. *)
Theorem register_failure_after_assignment :
  let reply :=
    Resolves {| status := 201;
                data := VObj [("success", VBool true);
                              ("data",
                               VObj [("id",
                                      VObj [("toString", VNum 1)])])] |} in
  functionId (initial echo_options) = VNull
  /\ outcome (registerWithPlatform "localhost" 3001 reply)
       (initial echo_options)
     = Throw (ErrorObj "Platform registration failed: Cannot convert object to primitive value")
  /\ functionId (state_after (registerWithPlatform "localhost" 3001 reply)
                   (initial echo_options))
     = VObj [("toString", VNum 1)].
Proof. repeat split. Qed.

(** C7: with a handler attached and auto-register enabled, when the
    registration call throws, [run] logs the failure and goes on exactly as
    if no registration had been attempted: it ends as the call to listen on
    the requested port and host ends, and when the socket is bound it has
    called listen, stored the server and resolved. *)
Theorem run_survives_registration_failure :
  forall (s : AgentFunction) (h : FunctionHandler) (port : Z) (host : string)
         (reply : axios_result) (bound : bool) (e : thrown),
    handler s = Some h ->
    autoRegister s = true ->
    outcome (registerWithPlatform host port reply) s = Throw e ->
    exists m,
      JS.message_of e = Normal (VStr m) /\
      In (Console Warn [VStr "Auto-registration failed:"; VStr m])
         (trace (run port host reply bound) s) /\
      outcome (run port host reply bound) s
        = outcome (listen port host bound)
            (state_after (registerWithPlatform host port reply) s) /\
      (bound = true ->
       outcome (run port host reply bound) s = Normal tt /\
       In (Listen port host) (trace (run port host reply bound) s) /\
       server (state_after (run port host reply bound) s)
         = Some {| server_port := port; server_host := host;
                   listening := true |}).
Proof.
  intros s h port host reply bound e Hh Hauto Hthrow.
  destruct (register_outcome_shape host port reply s)
    as [[body [Hout _]] | [m [Hout Hswallowed]]]; [ congruence | ].
  rewrite Hout in Hthrow. injection Hthrow as <-.
  exists m. split; [ reflexivity | ].
  unfold outcome at 1 3, state_after at 2, trace.
  rewrite (run_with_handler s h port host reply bound Hh), Hauto.
  cbn [fst snd]. rewrite Hswallowed.
  split; [ | split ].
  - apply in_or_app. left. apply in_or_app. right. left. reflexivity.
  - unfold outcome, listen, listen_outcome. unfold_monad.
    destruct bound; destruct (valid_port port); reflexivity.
  - intros ->. split; [ reflexivity | ]. split.
    + apply in_or_app. right. apply in_or_app. right. left. reflexivity.
    + reflexivity.
Qed.

Lemma run_survives_registration_failure_witness :
  outcome (run 3001 "localhost" refused true)
    (set_handler (Some echo) (initial echo_options)) = Normal tt
  /\ server (state_after (run 3001 "localhost" refused true)
               (set_handler (Some echo) (initial echo_options)))
     = Some {| server_port := 3001; server_host := "localhost";
               listening := true |}.
Proof.
  destruct (run_survives_registration_failure
              (set_handler (Some echo) (initial echo_options)) echo
              3001 "localhost" refused true
              (ErrorObj "Platform registration failed: connect ECONNREFUSED 127.0.0.1:3000")
              eq_refl eq_refl eq_refl)
    as [m [_ [_ [_ Hbound]]]].
  destruct (Hbound eq_refl) as [Hout [_ Hserver]].
  split; [ exact Hout | exact Hserver ].
Defined.

(** ** Deregistration and the registration record *)

(** [unregisterFromPlatform] assigns no field. *)
Lemma unregister_keeps_state reply s :
  state_after (unregisterFromPlatform reply) s = s.
Proof.
  unfold unregisterFromPlatform, axios_delete. unfold_monad.
  destruct (JS.truthy (functionId s)); simpl; [ | reflexivity ].
  destruct (to_string_cases (functionId s)) as [[id ->] | ->]; simpl;
    [ | reflexivity ].
  destruct reply as [r | m]; simpl; [ | reflexivity ].
  destruct (status r =? 200); reflexivity.
Qed.

(** It reports [true] exactly for a recorded identifier that can be printed
    and a 200 reply, and never throws. *)
Lemma unregister_outcome reply s :
  outcome (unregisterFromPlatform reply) s = Normal (unregister_result reply s).
Proof.
  unfold unregisterFromPlatform, unregister_result, printable, axios_delete.
  unfold_monad.
  destruct (JS.truthy (functionId s)); simpl; [ | reflexivity ].
  destruct (to_string_cases (functionId s)) as [[id ->] | ->]; simpl;
    [ | reflexivity ].
  destruct reply as [r | m]; simpl; [ | reflexivity ].
  destruct (status r =? 200); reflexivity.
Qed.

(** [stop] closes the stored server, if any, and assigns nothing else. *)
Lemma stop_state reply s :
  state_after (stop reply) s
    = match server s with
      | Some srv =>
          set_server (Some {| server_port := server_port srv;
                              server_host := server_host srv;
                              listening := false |}) s
      | None => s
      end.
Proof.
  unfold stop. unfold_monad.
  pose proof (unregister_keeps_state reply) as Hkeep.
  pose proof (unregister_outcome reply) as Hout.
  unfold state_after, outcome in Hkeep, Hout.
  destruct (server s) as [srv | ]; simpl;
    destruct (autoRegister s); simpl; try reflexivity;
    destruct (JS.truthy (functionId s)) eqn:Hid; simpl; try reflexivity.
  - match goal with
    | |- context [unregisterFromPlatform reply ?s1] =>
        specialize (Hkeep s1); specialize (Hout s1);
        destruct (unregisterFromPlatform reply s1) as [[o s2] t]
    end.
    simpl in *. subst. reflexivity.
  - specialize (Hkeep s); specialize (Hout s);
      destruct (unregisterFromPlatform reply s) as [[o s2] t].
    simpl in *. subst. reflexivity.
Qed.

(** The execute route assigns no field. *)
Lemma post_execute_keeps_state req_body s :
  state_after (Routes.post_execute req_body) s = s.
Proof.
  unfold Routes.post_execute. unfold_monad.
  destruct (handler s) as [h | ]; simpl; [ | reflexivity ].
  destruct (Routes.input_of req_body) as [i | e | ]; simpl.
  - destruct (debug s); simpl;
      destruct (h i) as [r | e | ]; simpl; try reflexivity;
      destruct (JS.message_of e) as [m | e' | ]; try reflexivity;
      destruct (JS.to_string m); reflexivity.
  - destruct (JS.message_of e) as [m | e' | ]; try reflexivity;
      destruct (JS.to_string m); reflexivity.
  - reflexivity.
Qed.

Lemma run_state s h port host reply bound :
  handler s = Some h ->
  state_after (run port host reply bound) s
    = listened port host bound
        (if autoRegister s
         then state_after (registerWithPlatform host port reply) s
         else s).
Proof.
  intro Hh. unfold state_after at 1.
  now rewrite (run_with_handler s h port host reply bound Hh).
Qed.

Lemma listened_functionId port host bound s :
  functionId (listened port host bound s) = functionId s.
Proof. unfold listened. now destruct (bound || valid_port port). Qed.

Lemma listened_endpointUrl port host bound s :
  endpointUrl (listened port host bound s) = endpointUrl s.
Proof. unfold listened. now destruct (bound || valid_port port). Qed.

Lemma listened_handler port host bound s :
  handler (listened port host bound s) = handler s.
Proof. unfold listened. now destruct (bound || valid_port port). Qed.

(** What one call can do to the two registration fields: nothing, or what
    [registerWithPlatform] does to them, the identifier moving only when the
    platform accepts. *)
Lemma perform_registration_fields (c : call) (s : AgentFunction) :
  (functionId (fst (perform c s)) = functionId s /\
   endpointUrl (fst (perform c s)) = endpointUrl s)
  \/
  (exists host port,
      endpointUrl (fst (perform c s)) = endpointUrl (with_endpoint host port s)
      /\ (functionId (fst (perform c s)) = functionId s \/ registers c = true)).
Proof.
  assert (Hreg : forall host port reply,
             endpointUrl (state_after (registerWithPlatform host port reply) s)
               = endpointUrl (with_endpoint host port s)
             /\ (functionId (state_after (registerWithPlatform host port reply) s)
                   = functionId s
                 \/ platform_accepts reply = true)).
  { intros host port reply. unfold state_after.
    destruct (register_outcome host port reply s)
      as [[Hacc [r [id [_ [_ Heq]]]]] | [_ [cause [Heq _]]]];
      rewrite Heq; simpl.
    - auto.
    - rewrite with_endpoint_functionId. auto. }
  assert (Hregs : forall reply,
             platform_accepts reply = true ->
             match reply with
             | Resolves r => match accepted r with
                             | Normal ok => ok
                             | _ => false
                             end
             | Rejects _ => false
             end = true).
  { intros [r | m] Hacc; [ | discriminate ].
    apply accepted_iff in Hacc. now rewrite Hacc. }
  destruct c as [h | host port reply | reply | port host reply bound
                 | reply | req_body]; unfold perform, effect; simpl fst.
  - left. split; reflexivity.
  - right. exists host, port.
    destruct (Hreg host port reply) as [He [Hf | Hacc]];
      (split; [ exact He | ]); [ left; exact Hf | right ].
    simpl. destruct reply as [r | m]; [ | discriminate ].
    apply (Hregs (Resolves r) Hacc).
  - left. rewrite unregister_keeps_state. split; reflexivity.
  - destruct (handler s) as [h | ] eqn:Hh.
    + rewrite (run_state s h port host reply bound Hh).
      rewrite listened_functionId, listened_endpointUrl.
      destruct (autoRegister s); simpl; [ | left; split; reflexivity ].
      right. exists host, port.
      destruct (Hreg host port reply) as [He [Hf | Hacc]];
        (split; [ exact He | ]); [ left; exact Hf | right ].
      simpl. destruct reply as [r | m]; [ | discriminate ].
      apply (Hregs (Resolves r) Hacc).
    + left. unfold state_after.
      rewrite (run_without_handler_state s port host reply bound Hh).
      split; reflexivity.
  - left. rewrite stop_state. destruct (server s); split; reflexivity.
  - left. rewrite post_execute_keeps_state. split; reflexivity.
Qed.

(** ** Invariants of a lifecycle *)

Lemma perform_all_state cs : forall s tr tr',
  fst (perform_all cs s tr) = fst (perform_all cs s tr').
Proof.
  induction cs as [ | c rest IH ]; intros s tr tr'; simpl; [ reflexivity | ].
  destruct (perform c s) as [s1 t1]. apply IH.
Qed.

Lemma perform_all_cons c rest s tr :
  fst (perform_all (c :: rest) s tr)
    = fst (perform_all rest (fst (perform c s)) tr).
Proof.
  simpl. destruct (perform c s) as [s1 t1]. simpl. apply perform_all_state.
Qed.

(** Without an accepted registration the identifier stays [null]. *)
Lemma functionId_null_preserved cs : forall s tr,
  functionId s = VNull ->
  forallb (fun c => negb (registers c)) cs = true ->
  functionId (fst (perform_all cs s tr)) = VNull.
Proof.
  induction cs as [ | c rest IH ]; intros s tr Hnull Hcs; [ exact Hnull | ].
  simpl in Hcs. apply andb_true_iff in Hcs as [Hc Hrest].
  rewrite perform_all_cons. apply IH; [ | exact Hrest ].
  destruct (perform_registration_fields c s)
    as [[Hf _] | [host [port [_ [Hf | Hreg]]]]]; try congruence.
  rewrite Hreg in Hc. discriminate.
Qed.

Lemma record_has_endpoint_preserved cs : forall s tr,
  record_has_endpoint s -> record_has_endpoint (fst (perform_all cs s tr)).
Proof.
  induction cs as [ | c rest IH ]; intros s tr Hinv; [ exact Hinv | ].
  rewrite perform_all_cons. apply IH.
  destruct (perform_registration_fields c s)
    as [[Hf He] | [host [port [He _]]]]; unfold record_has_endpoint.
  - rewrite Hf, He. exact Hinv.
  - right. rewrite He. apply with_endpoint_recorded.
Qed.

Lemma record_has_endpoint_history options cs :
  record_has_endpoint (fst (history options cs)).
Proof.
  unfold history. apply record_has_endpoint_preserved. left. reflexivity.
Qed.

Lemma register_never_listens host port reply s :
  existsb is_listen (trace (registerWithPlatform host port reply) s
                     ++ swallowed (outcome (registerWithPlatform host port reply) s))
    = false.
Proof.
  unfold trace, outcome.
  destruct (register_outcome host port reply s)
    as [[_ [r [id [_ [_ Heq]]]]] | [_ [cause [Heq _]]]];
    rewrite Heq; unfold accepted_outcome, accepted_log;
    try destruct (JS.to_string id); reflexivity.
Qed.

(** C3 as stated fails: with the identifier ["X"] on record, a DELETE that
    the platform answers with 200 makes [unregisterFromPlatform] return
    [true], and the identifier is still ["X"]. *)
Lemma unregister_true_keeps_record :
  let s := fst (history echo_options
                  [CallSetHandler echo;
                   CallRegister "localhost" 3001 created_X]) in
  functionId s = VStr "X" /\
  outcome (unregisterFromPlatform deleted) s = Normal true /\
  functionId (state_after (unregisterFromPlatform deleted) s) = VStr "X" /\
  functionId (state_after (unregisterFromPlatform deleted) s) <> VNull.
Proof. simpl. repeat split. discriminate. Qed.

(** C3, amended: the identifier is [null] after construction and after any
    calls none of which is an accepted registration; deregistration never
    clears it: [unregisterFromPlatform] leaves every field as it was,
    whatever it returns, and [stop] leaves the identifier as it was. *)
Theorem functionId_null_until_registered :
  (forall (options : FunctionOptions) (cs : list call),
      forallb (fun c => negb (registers c)) cs = true ->
      functionId (fst (history options cs)) = VNull)
  /\ (forall (s : AgentFunction) (reply : axios_result),
         state_after (unregisterFromPlatform reply) s = s)
  /\ (forall (s : AgentFunction) (reply : axios_result),
         functionId (state_after (stop reply) s) = functionId s).
Proof.
  split; [ | split ].
  - intros options cs Hcs. unfold history.
    apply functionId_null_preserved; [ reflexivity | exact Hcs ].
  - intros s reply. apply unregister_keeps_state.
  - intros s reply. rewrite stop_state. now destruct (server s).
Qed.

Lemma functionId_null_until_registered_witness :
  functionId (fst (history echo_options
                     [CallSetHandler echo;
                      CallRun 3001 "localhost" refused true;
                      PostExecute (VObj [("input", VNum 1)]);
                      CallStop deleted])) = VNull.
Proof.
  apply (proj1 functionId_null_until_registered echo_options
           [CallSetHandler echo;
            CallRun 3001 "localhost" refused true;
            PostExecute (VObj [("input", VNum 1)]);
            CallStop deleted]
           eq_refl).
Defined.

(** C2 as stated fails: after [setHandler] and a manual
    [registerWithPlatform] that the platform accepts, the identifier and the
    endpoint URL are on record and the instance has never listened. *)
Lemma record_without_listener :
  let s := fst (history echo_options
                  [CallSetHandler echo;
                   CallRegister "localhost" 3001 created_X]) in
  let tr := snd (history echo_options
                   [CallSetHandler echo;
                    CallRegister "localhost" 3001 created_X]) in
  functionId s = VStr "X" /\
  endpointUrl s = Some "http://localhost:3001/execute" /\
  server s = None /\
  existsb is_listen tr = false.
Proof. simpl. repeat split. Qed.

(** C2, amended: in every state of a lifecycle, an identifier on record
    comes with a recorded endpoint URL.  When [run(port, host)] is called
    with a handler attached and no endpoint URL recorded yet, and the socket
    is bound, [run] resolves with the server listening on that port and
    host; if an identifier is then on record, the recorded endpoint URL is
    [http://host:port/execute]; and every registration request of that [run]
    was sent before it listened. *)
Theorem record_implies_endpoint_and_run_listens :
  forall (options : FunctionOptions) (cs : list call),
    (functionId (fst (history options cs)) <> VNull ->
     exists url, endpointUrl (fst (history options cs)) = Some url)
    /\ (forall (h : FunctionHandler) (port : Z) (host : string)
               (reply : axios_result),
           handler (fst (history options cs)) = Some h ->
           endpointUrl (fst (history options cs)) = None ->
           outcome (run port host reply true) (fst (history options cs))
             = Normal tt
           /\ server (state_after (run port host reply true)
                        (fst (history options cs)))
              = Some {| server_port := port; server_host := host;
                        listening := true |}
           /\ (functionId (state_after (run port host reply true)
                             (fst (history options cs))) <> VNull ->
               endpointUrl (state_after (run port host reply true)
                              (fst (history options cs)))
                 = Some (endpoint_of host port))
           /\ exists pre post,
               trace (run port host reply true) (fst (history options cs))
                 = (pre ++ Listen port host :: post)%list
               /\ existsb is_listen pre = false
               /\ posts post = []).
Proof.
  intros options cs.
  pose proof (record_has_endpoint_history options cs) as Hinv.
  set (s := fst (history options cs)) in *.
  split.
  - intro Hid. destruct Hinv as [Hnull | Hurl]; [ congruence | ].
    destruct (endpointUrl s) as [url | ]; [ eauto | discriminate ].
  - intros h port host reply Hh Hnone.
    assert (Hnull : functionId s = VNull).
    { destruct Hinv as [Hnull | Hurl]; [ exact Hnull | ].
      rewrite Hnone in Hurl. discriminate. }
    unfold outcome at 1, state_after at 1 2 3, trace at 1.
    rewrite (run_with_handler s h port host reply true Hh). simpl.
    split; [ reflexivity | ]. split; [ reflexivity | ]. split.
    + destruct (autoRegister s); [ intros _ | congruence ].
      unfold state_after.
      destruct (register_outcome host port reply s)
        as [[_ [r [id [_ [_ Heq]]]]] | [_ [cause [Heq _]]]];
        rewrite Heq; simpl; unfold with_endpoint; rewrite Hnone; reflexivity.
    + exists ((if autoRegister s
               then trace (registerWithPlatform host port reply) s
                    ++ swallowed (outcome (registerWithPlatform host port reply) s)
               else []) ++ startup_logs s port host)%list.
      eexists. split; [ | split ].
      * unfold listening_events. rewrite <- app_assoc. reflexivity.
      * rewrite existsb_app, orb_false_iff. split; [ | reflexivity ].
        destruct (autoRegister s); [ apply register_never_listens | reflexivity ].
      * reflexivity.
Qed.

Lemma record_implies_endpoint_and_run_listens_witness :
  let s := fst (history echo_options [CallSetHandler echo]) in
  outcome (run 3001 "localhost" created_X true) s = Normal tt
  /\ server (state_after (run 3001 "localhost" created_X true) s)
     = Some {| server_port := 3001; server_host := "localhost";
               listening := true |}
  /\ endpointUrl (state_after (run 3001 "localhost" created_X true) s)
     = Some "http://localhost:3001/execute".
Proof.
  destruct (proj2 (record_implies_endpoint_and_run_listens echo_options
                     [CallSetHandler echo])
              echo 3001 "localhost" created_X eq_refl eq_refl)
    as [Hout [Hserver [Hurl _]]].
  split; [ exact Hout | ]. split; [ exact Hserver | ].
  apply Hurl. vm_compute. discriminate.
Defined.

(** * Further properties of the class *)

(** ** The fields fixed at construction *)

Lemma same_config_refl s : same_config s s.
Proof. unfold same_config. repeat split. Qed.

Lemma same_config_trans s1 s2 s3 :
  same_config s1 s2 -> same_config s2 s3 -> same_config s1 s3.
Proof. unfold same_config. intuition congruence. Qed.

Lemma with_endpoint_config host port s : same_config s (with_endpoint host port s).
Proof.
  unfold with_endpoint. destruct (no_endpoint (endpointUrl s));
    unfold same_config; repeat split.
Qed.

Lemma register_config host port reply s :
  same_config s (state_after (registerWithPlatform host port reply) s).
Proof.
  unfold state_after.
  destruct (register_outcome host port reply s)
    as [[_ [r [id [_ [_ Heq]]]]] | [_ [cause [Heq _]]]]; rewrite Heq; simpl.
  - apply same_config_trans with (with_endpoint host port s);
      [ apply with_endpoint_config | unfold same_config; repeat split ].
  - apply with_endpoint_config.
Qed.

Lemma listened_config port host bound s :
  same_config s (listened port host bound s).
Proof.
  unfold listened. destruct (bound || valid_port port);
    unfold same_config; repeat split.
Qed.

(** No call assigns one of the six configuration fields. *)
Lemma perform_config (c : call) (s : AgentFunction) :
  same_config s (fst (perform c s)).
Proof.
  destruct c as [h | host port reply | reply | port host reply bound
                 | reply | req_body]; unfold perform, effect; simpl fst.
  - unfold same_config. repeat split.
  - apply register_config.
  - rewrite unregister_keeps_state. apply same_config_refl.
  - destruct (handler s) as [h | ] eqn:Hh.
    + rewrite (run_state s h port host reply bound Hh).
      destruct (autoRegister s) eqn:Hauto.
      * apply same_config_trans
          with (state_after (registerWithPlatform host port reply) s);
          [ apply register_config | apply listened_config ].
      * apply listened_config.
    + unfold state_after.
      rewrite (run_without_handler_state s port host reply bound Hh).
      apply same_config_refl.
  - rewrite stop_state. destruct (server s);
      unfold same_config; repeat split.
  - rewrite post_execute_keeps_state. apply same_config_refl.
Qed.

Lemma perform_all_config cs : forall s tr,
  same_config s (fst (perform_all cs s tr)).
Proof.
  induction cs as [ | c rest IH ]; intros s tr; [ apply same_config_refl | ].
  rewrite perform_all_cons.
  apply same_config_trans with (fst (perform c s));
    [ apply perform_config | apply IH ].
Qed.

Lemma history_config options cs :
  same_config (initial options) (fst (history options cs)).
Proof. unfold history. apply perform_all_config. Qed.

Lemma strings_serializable (l : list string) :
  forallb JS.json_serializable (map VStr l) = true.
Proof. induction l as [ | x rest IH ]; simpl; [ reflexivity | exact IH ]. Qed.

(** X1: whatever calls were made on an instance since its construction,
    handler attached or not, GET /health answers 200 with
    [{status: "ok", name}] for the name given to the constructor; it changes
    no field and does nothing observable. *)
Theorem health_after_any_lifecycle :
  forall (options : FunctionOptions) (cs : list call),
    Routes.get_health (fst (history options cs))
    = (Normal {| statusCode := 200;
                 body := Some (VObj [("status", VStr "ok");
                                     ("name", VStr (opt_name options))]) |},
       fst (history options cs), []).
Proof.
  intros options cs.
  destruct (history_config options cs) as [Hname _].
  unfold Routes.get_health. unfold_monad. simpl.
  unfold Res.json. simpl. rewrite Hname. reflexivity.
Qed.

(** X2: whatever calls were made on an instance since its construction,
    GET /info answers 200 with the name, the description (empty when none
    was given), the capabilities exactly as given to the constructor, in
    their order (none when none was given), and the status ["running"]. *)
Theorem info_after_any_lifecycle :
  forall (options : FunctionOptions) (cs : list call),
    outcome Routes.get_info (fst (history options cs))
    = Normal
        {| statusCode := 200;
           body :=
             Some (VObj
                     [("name", VStr (opt_name options));
                      ("description",
                       VStr match opt_description options with
                            | Some d => d
                            | None => EmptyString
                            end);
                      ("capabilities",
                       VArr (map VStr match opt_capabilities options with
                                      | Some c => c
                                      | None => []
                                      end));
                      ("status", VStr "running")]) |}.
Proof.
  intros options cs.
  destruct (history_config options cs) as [Hname [Hdesc [Hcaps _]]].
  unfold Routes.get_info. unfold_monad. simpl.
  unfold Res.json. rewrite Hname, Hdesc, Hcaps.
  rewrite json_normalize_serializable; [ reflexivity | ].
  simpl. rewrite strings_serializable. reflexivity.
Qed.

(** ** The execute route, further *)

Lemma handler_stays_detached cs : forall s tr,
  handler s = None ->
  forallb (fun c => negb (is_set_handler c)) cs = true ->
  handler (fst (perform_all cs s tr)) = None.
Proof.
  induction cs as [ | c rest IH ]; intros s tr Hnone Hcs; [ exact Hnone | ].
  simpl in Hcs. apply andb_true_iff in Hcs as [Hc Hrest].
  rewrite perform_all_cons. apply IH; [ | exact Hrest ].
  destruct c as [h | host port reply | reply | port host reply bound
                 | reply | req_body]; unfold perform, effect; simpl fst.
  - discriminate Hc.
  - unfold state_after.
    destruct (register_outcome host port reply s)
      as [[_ [r [id [_ [_ Heq]]]]] | [_ [cause [Heq _]]]]; rewrite Heq; simpl;
      unfold with_endpoint; destruct (no_endpoint (endpointUrl s)); exact Hnone.
  - now rewrite unregister_keeps_state.
  - unfold state_after.
    now rewrite (run_without_handler_state s port host reply bound Hnone).
  - rewrite stop_state. now destruct (server s).
  - now rewrite post_execute_keeps_state.
Qed.

(** X3: on an instance on which [setHandler] was never called, whatever
    else was called, a POST to /execute answers 500 with
    [{error: "No handler defined for this function"}] for every request
    body, unreadable ones included, and logs nothing. *)
Theorem execute_without_handler :
  forall (options : FunctionOptions) (cs : list call) (req_body : value),
    forallb (fun c => negb (is_set_handler c)) cs = true ->
    Routes.post_execute req_body (fst (history options cs))
    = (Normal {| statusCode := 500;
                 body := Some (VObj [("error",
                                      VStr "No handler defined for this function")]) |},
       fst (history options cs), []).
Proof.
  intros options cs req_body Hcs.
  assert (Hnone : handler (fst (history options cs)) = None).
  { unfold history. apply handler_stays_detached; [ reflexivity | exact Hcs ]. }
  unfold Routes.post_execute. unfold_monad. rewrite Hnone. reflexivity.
Qed.

Lemma execute_without_handler_witness :
  outcome (Routes.post_execute VUndefined)
    (fst (history echo_options
            [CallRegister "localhost" 3001 created_X; CallStop deleted]))
  = Normal {| statusCode := 500;
              body := Some (VObj [("error",
                                   VStr "No handler defined for this function")]) |}.
Proof.
  unfold outcome.
  rewrite (execute_without_handler echo_options
             [CallRegister "localhost" 3001 created_X; CallStop deleted]
             VUndefined eq_refl).
  reflexivity.
Defined.

(** X4: with a handler attached, a request whose parsed body is [null] or
    [undefined] never reaches the handler: reading [req.body.input] throws,
    and the route answers 500 with the [TypeError]'s message after
    ["Function execution failed: "]. *)
Theorem execute_unreadable_body :
  forall (s : AgentFunction) (h : FunctionHandler) (req_body : value),
    handler s = Some h ->
    req_body = VNull \/ req_body = VUndefined ->
    outcome (Routes.post_execute req_body) s
      = Normal {| statusCode := 500;
                  body := Some (VObj [("error",
                                       VStr ("Function execution failed: "
                                             ++ JS.type_error_message req_body
                                                  "input"))]) |}
    /\ invocations (trace (Routes.post_execute req_body) s) = [].
Proof.
  intros s h req_body Hh [-> | ->];
    unfold Routes.post_execute; unfold_monad; rewrite Hh; split; reflexivity.
Qed.

Lemma execute_unreadable_body_witness :
  outcome (Routes.post_execute VUndefined)
    (set_handler (Some echo) (initial echo_options))
  = Normal {| statusCode := 500;
              body := Some (VObj [("error",
                                   VStr "Function execution failed: Cannot read properties of undefined (reading 'input')")]) |}.
Proof.
  apply (execute_unreadable_body
           (set_handler (Some echo) (initial echo_options)) echo VUndefined
           eq_refl (or_intror eq_refl)).
Defined.

(** X5: with a handler attached, a request body that is neither [null] nor
    [undefined] and has no [input] property (an object without it, an array,
    a string, a number, a boolean) is passed to the handler whole, once. *)
Theorem execute_body_without_input :
  forall (s : AgentFunction) (h : FunctionHandler) (req_body : value),
    handler s = Some h ->
    req_body <> VNull -> req_body <> VUndefined ->
    has_field req_body "input" = false ->
    invocations (trace (Routes.post_execute req_body) s) = [req_body].
Proof.
  intros s h req_body Hh Hnull Hundef Hfield.
  assert (Hin : Routes.input_of req_body = Normal req_body).
  { unfold Routes.input_of, JS.get_prop.
    destruct req_body; try congruence; try reflexivity.
    unfold has_field in Hfield.
    destruct (JS.lookup "input" fields); [ discriminate | reflexivity ]. }
  unfold Routes.post_execute. unfold_monad. rewrite Hh, Hin. simpl.
  destruct (debug s); simpl;
    destruct (h req_body) as [r | e | ]; simpl; try reflexivity;
    destruct (JS.message_of e) as [m | e' | ]; try reflexivity;
      destruct (JS.to_string m); reflexivity.
Qed.

Lemma execute_body_without_input_witness :
  invocations (trace (Routes.post_execute (VArr [VNum 1; VNum 2]))
                 (set_handler (Some echo) (initial echo_options)))
  = [VArr [VNum 1; VNum 2]].
Proof.
  apply (execute_body_without_input
           (set_handler (Some echo) (initial echo_options)) echo
           (VArr [VNum 1; VNum 2]) eq_refl).
  - discriminate.
  - discriminate.
  - reflexivity.
Defined.

(** X6: a POST to /execute stays inside the process: for every instance
    and request body it emits console output and handler calls only (no
    outbound request, no listen or close, no exit), calls the handler at most
    once and assigns no field. *)
Theorem execute_stays_local :
  forall (s : AgentFunction) (req_body : value),
    forallb is_local (trace (Routes.post_execute req_body) s) = true
    /\ (List.length (invocations (trace (Routes.post_execute req_body) s)) <= 1)%nat
    /\ state_after (Routes.post_execute req_body) s = s.
Proof.
  intros s req_body.
  split; [ | split; [ | apply post_execute_keeps_state ] ];
    unfold Routes.post_execute; unfold_monad;
    (destruct (handler s) as [h | ]; simpl; [ | auto ]);
    (destruct (Routes.input_of req_body) as [i | e | ]; simpl;
     [ destruct (debug s); simpl;
       destruct (h i) as [r | e | ]; simpl; auto;
       destruct (JS.message_of e) as [m | e' | ]; simpl; auto;
       destruct (JS.to_string m); simpl; auto
     | destruct (JS.message_of e) as [m | e' | ]; simpl; auto;
       destruct (JS.to_string m); simpl; auto
     | auto ]).
Qed.

(** X7: the debug flag changes the console output of a POST to /execute
    and nothing else: the response (or the failure) and the handler calls are
    the same with the flag on or off. *)
Theorem execute_independent_of_debug :
  forall (s : AgentFunction) (d : bool) (req_body : value),
    outcome (Routes.post_execute req_body) (set_debug d s)
      = outcome (Routes.post_execute req_body) s
    /\ invocations (trace (Routes.post_execute req_body) (set_debug d s))
       = invocations (trace (Routes.post_execute req_body) s).
Proof.
  intros s d req_body.
  unfold Routes.post_execute, set_debug. unfold_monad. simpl.
  destruct (handler s) as [h | ]; simpl; [ | split; reflexivity ].
  destruct (Routes.input_of req_body) as [i | e | ]; simpl.
  - destruct d, (debug s); simpl;
      destruct (h i) as [r | e | ]; simpl; try (split; reflexivity);
      destruct (JS.message_of e) as [m | e' | ]; try (split; reflexivity);
      destruct (JS.to_string m); split; reflexivity.
  - destruct (JS.message_of e) as [m | e' | ]; try (split; reflexivity);
      destruct (JS.to_string m); split; reflexivity.
  - split; reflexivity.
Qed.

(** ** Deregistration, further *)

Lemma unregister_run reply s :
  unregisterFromPlatform reply s
  = (Normal (unregister_result reply s), s, unregister_events reply s).
Proof.
  unfold unregisterFromPlatform, unregister_events, unregister_result,
    printable, unregister_url, axios_delete.
  unfold_monad.
  destruct (JS.truthy (functionId s)); simpl; [ | reflexivity ].
  destruct (to_string_cases (functionId s)) as [[id ->] | ->]; simpl;
    [ | reflexivity ].
  destruct reply as [r | m]; simpl; [ | reflexivity ].
  destruct (status r =? 200); reflexivity.
Qed.

Lemma unregister_events_deletes reply s :
  deletes (unregister_events reply s) = unregister_deletes s.
Proof.
  unfold unregister_events, unregister_deletes.
  destruct (JS.truthy (functionId s)); [ | reflexivity ].
  destruct (JS.to_string (functionId s)); try reflexivity.
  destruct reply as [r | m]; [ destruct (status r =? 200) | ]; reflexivity.
Qed.

Lemma unregister_deletes_string s x :
  functionId s = VStr x -> x <> EmptyString ->
  unregister_deletes s = [platformUrl s ++ "/api/agent-functions/" ++ x]
  /\ JS.truthy (functionId s) && printable (functionId s) = true.
Proof.
  intros Hid Hx. unfold unregister_deletes, printable, unregister_url.
  rewrite Hid. simpl.
  destruct (x =? EmptyString)%string eqn:E.
  - apply String.eqb_eq in E. contradiction.
  - split; reflexivity.
Qed.

(** X8: [unregisterFromPlatform] never throws and assigns no field; it
    sends at most one DELETE and returns [true] only if the answer has status
    200.  Without a truthy identifier on record, or with one that a template
    literal cannot print, it sends nothing and returns [false].  With a
    non-empty string [x] as the identifier it sends exactly one DELETE, to
    [<platformUrl>/api/agent-functions/x], and returns [true] exactly when
    the answer has status 200. *)
Theorem unregister_contract :
  forall (s : AgentFunction) (reply : axios_result),
    state_after (unregisterFromPlatform reply) s = s
    /\ (exists b,
          outcome (unregisterFromPlatform reply) s = Normal b /\
          (b = true -> exists r, reply = Resolves r /\ status r = 200))
    /\ (List.length (deletes (trace (unregisterFromPlatform reply) s)) <= 1)%nat
    /\ (JS.truthy (functionId s) = false \/ printable (functionId s) = false ->
        outcome (unregisterFromPlatform reply) s = Normal false /\
        deletes (trace (unregisterFromPlatform reply) s) = [])
    /\ (forall x,
          functionId s = VStr x -> x <> EmptyString ->
          outcome (unregisterFromPlatform reply) s
            = Normal match reply with
                     | Resolves r => status r =? 200
                     | Rejects _ => false
                     end /\
          deletes (trace (unregisterFromPlatform reply) s)
            = [platformUrl s ++ "/api/agent-functions/" ++ x]).
Proof.
  intros s reply. unfold outcome, state_after, trace.
  rewrite unregister_run. cbn [fst snd]. rewrite unregister_events_deletes.
  split; [ reflexivity | ]. split; [ | split; [ | split ] ].
  - eexists. split; [ reflexivity | ].
    unfold unregister_result. intro Hb.
    apply andb_true_iff in Hb as [_ Hb].
    destruct reply as [r | m]; [ | discriminate ].
    exists r. split; [ reflexivity | now apply Z.eqb_eq ].
  - unfold unregister_deletes.
    destruct (JS.truthy (functionId s));
      [ destruct (JS.to_string (functionId s)) | ]; simpl; auto.
  - unfold unregister_result, unregister_deletes, printable.
    intros [-> | Hp]; [ split; reflexivity | ].
    destruct (JS.to_string (functionId s)); [ discriminate | | ];
      rewrite andb_false_r; split;
      try reflexivity; now destruct (JS.truthy (functionId s)).
  - intros x Hid Hx.
    destruct (unregister_deletes_string s x Hid Hx) as [Hdel Hok].
    unfold unregister_result. rewrite Hdel, Hok. split; reflexivity.
Qed.

Lemma unregister_contract_witness :
  outcome (unregisterFromPlatform deleted)
    (set_functionId (VObj [("toString", VNum 1)]) (initial echo_options))
  = Normal false
  /\ deletes (trace (unregisterFromPlatform deleted)
                (set_functionId (VObj [("toString", VNum 1)])
                   (initial echo_options)))
     = [].
Proof.
  apply (proj1 (proj2 (proj2 (proj2
           (unregister_contract
              (set_functionId (VObj [("toString", VNum 1)])
                 (initial echo_options))
              deleted))))).
  right. reflexivity.
Defined.

Lemma registered_state host port r s id :
  platform_accepts (Resolves r) = true ->
  path2 (data r) "data" "id" = Some id ->
  registerWithPlatform host port (Resolves r) s
  = (accepted_outcome r id,
     set_functionId id (with_endpoint host port s),
     [registration_request (with_endpoint host port s); accepted_log s id]).
Proof.
  intros Hacc Hid. apply accepted_iff in Hacc.
  destruct (register_accepted host port r s Hacc) as [id' [Hid' Heq]].
  rewrite Hid in Hid'. injection Hid' as <-. exact Heq.
Qed.

Lemma with_endpoint_platformUrl host port s :
  platformUrl (with_endpoint host port s) = platformUrl s.
Proof. unfold with_endpoint. now destruct (no_endpoint (endpointUrl s)). Qed.

(** X9: registration and deregistration compose: once the platform has
    accepted a registration with a non-empty string [x] as [data.id],
    [unregisterFromPlatform] sends its DELETE to
    [<platformUrl>/api/agent-functions/x] and returns [true] exactly on a
    200. *)
Theorem register_then_unregister :
  forall (s : AgentFunction) (host : string) (port : Z) (r : AxiosResponse)
         (x : string) (reply : axios_result),
    platform_accepts (Resolves r) = true ->
    path2 (data r) "data" "id" = Some (VStr x) ->
    x <> EmptyString ->
    deletes (trace (unregisterFromPlatform reply)
               (state_after (registerWithPlatform host port (Resolves r)) s))
      = [platformUrl s ++ "/api/agent-functions/" ++ x]
    /\ outcome (unregisterFromPlatform reply)
         (state_after (registerWithPlatform host port (Resolves r)) s)
       = Normal match reply with
                | Resolves r' => status r' =? 200
                | Rejects _ => false
                end.
Proof.
  intros s host port r x reply Hacc Hid Hx.
  unfold state_after at 1 2.
  rewrite (registered_state host port r s (VStr x) Hacc Hid). cbn [fst snd].
  unfold outcome, trace. rewrite unregister_run. cbn [fst snd].
  rewrite unregister_events_deletes.
  destruct (unregister_deletes_string
              (set_functionId (VStr x) (with_endpoint host port s)) x
              eq_refl Hx) as [Hdel Hok].
  unfold unregister_result. rewrite Hdel, Hok.
  cbn [platformUrl set_functionId]. rewrite with_endpoint_platformUrl.
  split; reflexivity.
Qed.

Lemma register_then_unregister_witness :
  deletes (trace (unregisterFromPlatform deleted)
             (state_after (registerWithPlatform "localhost" 3001 created_X)
                (initial echo_options)))
  = ["http://localhost:3000/api/agent-functions/X"].
Proof.
  apply (register_then_unregister (initial echo_options) "localhost" 3001
           {| status := 201;
              data := VObj [("success", VBool true);
                            ("data", VObj [("id", VStr "X")])] |}
           "X" deleted eq_refl eq_refl).
  discriminate.
Defined.

(** ** Stop and the signal handler *)

Lemma stop_run reply s :
  stop reply s
  = (Normal tt, closed s,
     (match server s with
      | Some _ => [Close]
      | None => []
      end
      ++ (if autoRegister s && JS.truthy (functionId s)
          then unregister_events reply s
          else []))%list).
Proof.
  unfold stop, closed. unfold_monad.
  destruct (server s) as [srv | ]; simpl;
    destruct (autoRegister s); simpl; try reflexivity;
    destruct (JS.truthy (functionId s)) eqn:Hid; simpl; try reflexivity;
    rewrite unregister_run; rewrite app_nil_r; reflexivity.
Qed.

Lemma closed_fields s :
  functionId (closed s) = functionId s /\
  autoRegister (closed s) = autoRegister s /\
  platformUrl (closed s) = platformUrl s /\
  closed (closed s) = closed s.
Proof.
  unfold closed. destruct (server s) as [srv | ] eqn:E; simpl; rewrite ?E;
    repeat split.
Qed.

Lemma stop_deletes reply s :
  deletes (trace (stop reply) s)
  = (if autoRegister s then unregister_deletes s else []).
Proof.
  unfold trace. rewrite stop_run. cbn [snd].
  assert (Hdel : forall a b, deletes (a ++ b) = (deletes a ++ deletes b)%list).
  { induction a as [ | e a IH ]; intro b; simpl; [ reflexivity | ].
    destruct e; simpl; rewrite ?IH; reflexivity. }
  rewrite Hdel.
  replace (deletes match server s with
                   | Some _ => [Close]
                   | None => []
                   end) with (@nil string)
    by (destruct (server s); reflexivity).
  destruct (autoRegister s); simpl; [ | reflexivity ].
  unfold unregister_deletes.
  destruct (JS.truthy (functionId s)) eqn:Hid; [ | reflexivity ].
  rewrite unregister_events_deletes. unfold unregister_deletes.
  now rewrite Hid.
Qed.

(** X10: [stop] never throws, whatever the platform answers.  It marks the
    stored server closed and assigns nothing else.  With auto-register on it
    sends the DELETE that [unregisterFromPlatform] sends for the identifier
    on record (none for a falsy one), and nothing with auto-register off; for
    a non-empty string [x] as the identifier and auto-register on that is one
    DELETE to [<platformUrl>/api/agent-functions/x]. *)
Theorem stop_contract :
  forall (s : AgentFunction) (reply : axios_result),
    outcome (stop reply) s = Normal tt
    /\ state_after (stop reply) s = closed s
    /\ deletes (trace (stop reply) s)
       = (if autoRegister s
          then deletes (trace (unregisterFromPlatform reply) s)
          else [])
    /\ (forall x,
          autoRegister s = true ->
          functionId s = VStr x -> x <> EmptyString ->
          deletes (trace (stop reply) s)
            = [platformUrl s ++ "/api/agent-functions/" ++ x]).
Proof.
  intros s reply. split; [ | split; [ | split ] ].
  - unfold outcome. now rewrite stop_run.
  - unfold state_after. now rewrite stop_run.
  - rewrite stop_deletes. unfold trace at 1. rewrite unregister_run.
    cbn [snd]. now rewrite unregister_events_deletes.
  - intros x Hauto Hid Hx. rewrite stop_deletes, Hauto.
    apply (unregister_deletes_string s x Hid Hx).
Qed.

Lemma stop_contract_witness :
  deletes (trace (stop deleted)
             (set_functionId (VStr "X") (initial echo_options)))
  = ["http://localhost:3000/api/agent-functions/X"].
Proof.
  apply (proj2 (proj2 (proj2
           (stop_contract (set_functionId (VStr "X") (initial echo_options))
              deleted)))
           "X" eq_refl eq_refl).
  discriminate.
Defined.

(** X11: [stop] on an instance that was never started and has nothing to
    deregister (auto-register off, or no truthy identifier on record) does
    nothing at all. *)
Theorem stop_before_start :
  forall (s : AgentFunction) (reply : axios_result),
    server s = None ->
    autoRegister s = false \/ JS.truthy (functionId s) = false ->
    stop reply s = (Normal tt, s, []).
Proof.
  intros s reply Hserver Hnothing.
  rewrite stop_run. unfold closed. rewrite Hserver.
  destruct Hnothing as [-> | ->]; [ reflexivity | ].
  now rewrite andb_false_r.
Qed.

Lemma stop_before_start_witness :
  stop refused (initial echo_options) = (Normal tt, initial echo_options, []).
Proof.
  apply (stop_before_start (initial echo_options) refused eq_refl
           (or_intror eq_refl)).
Defined.

(** X12: a second [stop] leaves the fields as the first left them, and
    repeats the first one's deregistration request, also when the first one
    was answered with 200: nothing clears the identifier in between. *)
Theorem stop_twice :
  forall (s : AgentFunction) (reply1 reply2 : axios_result),
    outcome (stop reply2) (state_after (stop reply1) s) = Normal tt
    /\ state_after (stop reply2) (state_after (stop reply1) s)
       = state_after (stop reply1) s
    /\ deletes (trace (stop reply2) (state_after (stop reply1) s))
       = deletes (trace (stop reply1) s).
Proof.
  intros s reply1 reply2.
  destruct (closed_fields s) as [Hid [Hauto [Hurl Hclosed]]].
  assert (Hstate : forall reply s0, state_after (stop reply) s0 = closed s0).
  { intros reply s0. unfold state_after. now rewrite stop_run. }
  rewrite !Hstate. split; [ | split ].
  - unfold outcome. now rewrite stop_run.
  - exact Hclosed.
  - rewrite !stop_deletes, Hauto. unfold unregister_deletes, unregister_url.
    now rewrite Hid, Hurl.
Qed.

(** X13: the signal handler logs, runs [stop] and exits with code 0,
    whatever the platform answers to the deregistration: its trace is the
    log line, the trace of [stop] and the exit, in this order, and nothing
    runs after the exit. *)
Theorem signalHandler_exits :
  forall (s : AgentFunction) (signal : string) (reply : axios_result),
    signalHandler signal reply s
    = (Pending, closed s,
       (Console Log [VStr (String (ascii_of_nat 10)
                             ("Shutting down agent function (" ++ signal
                              ++ ")..."))]
        :: trace (stop reply) s ++ [ProcessExit 0])%list).
Proof.
  intros s signal reply.
  unfold signalHandler, trace. unfold_monad.
  rewrite stop_run. simpl. reflexivity.
Qed.

(** ** Registration, further *)

(** X14: a registration that the platform accepts with a [data] that
    carries no usable [id] (missing, [null], empty, [0]) still returns the
    body as a success, yet leaves nothing to deregister: afterwards
    [unregisterFromPlatform] returns [false] and [stop] sends no DELETE. *)
Theorem registration_without_id :
  forall (s : AgentFunction) (host : string) (port : Z) (r : AxiosResponse)
         (id : value) (reply : axios_result),
    platform_accepts (Resolves r) = true ->
    path2 (data r) "data" "id" = Some id ->
    JS.truthy id = false ->
    outcome (registerWithPlatform host port (Resolves r)) s = Normal (data r)
    /\ outcome (unregisterFromPlatform reply)
         (state_after (registerWithPlatform host port (Resolves r)) s)
       = Normal false
    /\ deletes (trace (unregisterFromPlatform reply)
                  (state_after (registerWithPlatform host port (Resolves r)) s))
       = []
    /\ deletes (trace (stop reply)
                  (state_after (registerWithPlatform host port (Resolves r)) s))
       = [].
Proof.
  intros s host port r id reply Hacc Hid Hfalsy.
  assert (Hprint : exists text, JS.to_string id = Normal text).
  { destruct id; simpl in *; try discriminate; eauto.
    destruct b; [ discriminate | eauto ]. }
  destruct Hprint as [text Hprint].
  unfold outcome at 1, state_after.
  rewrite (registered_state host port r s id Hacc Hid). cbn [fst snd].
  unfold accepted_outcome. rewrite Hprint.
  split; [ reflexivity | ].
  rewrite stop_deletes. unfold outcome, trace. rewrite unregister_run.
  cbn [fst snd]. rewrite unregister_events_deletes.
  unfold unregister_result, unregister_deletes.
  cbn [functionId set_functionId]. rewrite Hfalsy.
  repeat split. now destruct (autoRegister _).
Qed.

Lemma registration_without_id_witness :
  outcome (unregisterFromPlatform deleted)
    (state_after
       (registerWithPlatform "localhost" 3001
          (Resolves {| status := 201;
                       data := VObj [("success", VBool true);
                                     ("data", VObj [])] |}))
       (initial echo_options))
  = Normal false.
Proof.
  apply (registration_without_id (initial echo_options) "localhost" 3001
           {| status := 201;
              data := VObj [("success", VBool true); ("data", VObj [])] |}
           VUndefined deleted eq_refl eq_refl eq_refl).
Defined.

Lemma register_state_endpoint host port reply s :
  endpointUrl (state_after (registerWithPlatform host port reply) s)
  = endpointUrl (with_endpoint host port s).
Proof.
  unfold state_after.
  destruct (register_outcome host port reply s)
    as [[_ [r [id [_ [_ Heq]]]]] | [_ [cause [Heq _]]]];
    rewrite Heq; unfold accepted_outcome, accepted_log;
    try destruct (JS.to_string id); reflexivity.
Qed.

Lemma register_first_event host port reply s :
  exists rest,
    trace (registerWithPlatform host port reply) s
    = registration_request (with_endpoint host port s) :: rest.
Proof.
  unfold trace.
  destruct (register_outcome host port reply s)
    as [[_ [r [id [_ [_ Heq]]]]] | [_ [cause [Heq _]]]];
    rewrite Heq; simpl; eauto.
Qed.

(** X15: the endpoint URL is computed once.  After a first
    [registerWithPlatform(host1, port1)] on an instance without an endpoint
    URL, accepted or not, a later [registerWithPlatform(host2, port2)] sends
    [http://host1:port1/execute] as its endpoint and leaves that URL on
    record. *)
Theorem endpoint_computed_once :
  forall (s : AgentFunction) (host1 host2 : string) (port1 port2 : Z)
         (reply1 reply2 : axios_result),
    no_endpoint (endpointUrl s) = true ->
    exists url payload rest,
      trace (registerWithPlatform host2 port2 reply2)
        (state_after (registerWithPlatform host1 port1 reply1) s)
      = HttpPost url payload 10000 :: rest
      /\ JS.get_prop payload "endpoint"
         = Normal (VStr (endpoint_of host1 port1))
      /\ endpointUrl
           (state_after (registerWithPlatform host2 port2 reply2)
              (state_after (registerWithPlatform host1 port1 reply1) s))
         = Some (endpoint_of host1 port1).
Proof.
  intros s host1 host2 port1 port2 reply1 reply2 Hnone.
  set (s1 := state_after (registerWithPlatform host1 port1 reply1) s).
  assert (H1 : endpointUrl s1 = Some (endpoint_of host1 port1)).
  { unfold s1. rewrite register_state_endpoint. unfold with_endpoint.
    rewrite Hnone. reflexivity. }
  assert (H2 : with_endpoint host2 port2 s1 = s1).
  { unfold with_endpoint. rewrite H1. reflexivity. }
  destruct (register_first_event host2 port2 reply2 s1) as [rest Hrest].
  rewrite H2 in Hrest.
  eexists _, _, rest. split; [ exact Hrest | ]. split.
  - simpl. rewrite H1. reflexivity.
  - rewrite register_state_endpoint, H2. exact H1.
Qed.

Lemma endpoint_computed_once_witness :
  endpointUrl
    (state_after (registerWithPlatform "example.org" 8080 created_X)
       (state_after (registerWithPlatform "localhost" 3001 refused)
          (initial echo_options)))
  = Some "http://localhost:3001/execute".
Proof.
  destruct (endpoint_computed_once (initial echo_options)
              "localhost" "example.org" 3001 8080 refused created_X eq_refl)
    as [url [payload [rest [_ [_ Hurl]]]]].
  exact Hurl.
Defined.

(** X16: what a refused registration reports.  When axios resolves with
    a response whose body is a JSON object that is not accepted (a status
    that is not 201, a falsy [success] or a falsy [data]), the thrown
    message is ["Platform registration failed: Registration failed: "]
    followed by the body's [error] when that is a non-empty string, and by
    ["Unknown error"] when it is missing or falsy. *)
Theorem register_refusal_message :
  forall (s : AgentFunction) (host : string) (port : Z) (code : Z)
         (fields : list (string * value)),
    platform_accepts (Resolves {| status := code; data := VObj fields |})
      = false ->
    (forall e,
        JS.lookup "error" fields = Some (VStr e) -> e <> EmptyString ->
        outcome (registerWithPlatform host port
                   (Resolves {| status := code; data := VObj fields |})) s
        = Throw (ErrorObj
                   ("Platform registration failed: Registration failed: "
                    ++ e)))
    /\ (match JS.lookup "error" fields with
        | Some e => JS.truthy e = false
        | None => True
        end ->
        outcome (registerWithPlatform host port
                   (Resolves {| status := code; data := VObj fields |})) s
        = Throw (ErrorObj
                   "Platform registration failed: Registration failed: Unknown error")).
Proof.
  intros s host port code fields Hrej.
  unfold outcome. rewrite (register_rejected host port _ s Hrej).
  cbn [fst]. unfold registration_cause. cbn [data JS.get_prop].
  split.
  - intros e He Hne. rewrite He. unfold JS.or. simpl.
    destruct (e =? EmptyString)%string eqn:E.
    + apply String.eqb_eq in E. contradiction.
    + reflexivity.
  - destruct (JS.lookup "error" fields) as [e | ]; [ | reflexivity ].
    intro Hfalsy. unfold JS.or. rewrite Hfalsy. reflexivity.
Qed.

Lemma register_refusal_message_witness :
  outcome (registerWithPlatform "localhost" 3001
             (Resolves {| status := 200;
                          data := VObj [("success", VBool false);
                                        ("error", VStr "name taken")] |}))
    (initial echo_options)
  = Throw (ErrorObj
             "Platform registration failed: Registration failed: name taken").
Proof.
  apply (proj1 (register_refusal_message (initial echo_options) "localhost"
                  3001 200
                  [("success", VBool false); ("error", VStr "name taken")]
                  eq_refl)
           "name taken" eq_refl).
  discriminate.
Defined.

(** X17: a body that is [null] (or missing) makes the property read itself
    throw, and the thrown registration error carries that [TypeError]'s
    message: the read of [success] for a 201, of [error] for any other
    status. *)
Theorem register_null_body :
  forall (s : AgentFunction) (host : string) (port : Z) (code : Z)
         (body : value),
    body = VNull \/ body = VUndefined ->
    outcome (registerWithPlatform host port
               (Resolves {| status := code; data := body |})) s
    = Throw (ErrorObj
               ("Platform registration failed: "
                ++ JS.type_error_message body
                     (if code =? 201 then "success" else "error")))
    /\ functionId (state_after
                     (registerWithPlatform host port
                        (Resolves {| status := code; data := body |})) s)
       = functionId s.
Proof.
  intros s host port code body [-> | ->];
    unfold registerWithPlatform, axios_post, accepted; unfold_monad;
    destruct (no_endpoint (endpointUrl s)); simpl;
    destruct (code =? 201); simpl; split; reflexivity.
Qed.

Lemma register_null_body_witness :
  outcome (registerWithPlatform "localhost" 3001
             (Resolves {| status := 201; data := VNull |}))
    (initial echo_options)
  = Throw (ErrorObj
             "Platform registration failed: Cannot read properties of null (reading 'success')").
Proof.
  apply (proj1 (register_null_body (initial echo_options) "localhost" 3001 201
                  VNull (or_introl eq_refl))).
Defined.

Lemma register_posts host port reply s :
  posts (trace (registerWithPlatform host port reply) s)
  = [platformUrl s ++ "/api/agent-functions"].
Proof.
  unfold trace.
  destruct (register_outcome host port reply s)
    as [[_ [r [id [_ [_ Heq]]]]] | [_ [cause [Heq _]]]];
    rewrite Heq; unfold accepted_log; try destruct (JS.to_string id); simpl;
    now rewrite with_endpoint_platformUrl.
Qed.

(** ** Run, further *)

Lemma posts_app t1 t2 : posts (t1 ++ t2) = (posts t1 ++ posts t2)%list.
Proof.
  induction t1 as [ | e rest IH ]; simpl; [ reflexivity | ].
  destruct e; simpl; rewrite IH; reflexivity.
Qed.

Lemma posts_after_registration s port host bound :
  posts (startup_logs s port host ++ listening_events s port host bound) = [].
Proof.
  unfold listening_events. destruct bound; destruct (valid_port port);
    reflexivity.
Qed.

Lemma listen_outcome_run port host bound s :
  outcome (listen port host bound) s = listen_outcome port bound.
Proof.
  unfold outcome, listen, listen_outcome. unfold_monad.
  destruct bound; destruct (valid_port port); reflexivity.
Qed.

(** X18: with auto-register off, [run] on an instance with a handler
    makes no request to the platform, leaves the identifier and the endpoint
    URL as they were and ends as the call to listen on the given port and
    host ends.  When the socket is bound it resolves with the server stored;
    for a port outside 0..65535 (nothing bound) it throws the [RangeError]
    and stores no server. *)
Theorem run_without_autoRegister :
  forall (s : AgentFunction) (h : FunctionHandler) (port : Z) (host : string)
         (reply : axios_result) (bound : bool),
    handler s = Some h ->
    autoRegister s = false ->
    outcome (run port host reply bound) s = outcome (listen port host bound) s
    /\ posts (trace (run port host reply bound) s) = []
    /\ functionId (state_after (run port host reply bound) s) = functionId s
    /\ endpointUrl (state_after (run port host reply bound) s) = endpointUrl s
    /\ (bound = true ->
        outcome (run port host reply bound) s = Normal tt /\
        server (state_after (run port host reply bound) s)
          = Some {| server_port := port; server_host := host;
                    listening := true |})
    /\ (bound = false -> valid_port port = false ->
        outcome (run port host reply bound) s
          = Throw (ErrorObj (bad_port_message port)) /\
        server (state_after (run port host reply bound) s) = server s).
Proof.
  intros s h port host reply bound Hh Hauto.
  rewrite listen_outcome_run.
  unfold outcome, state_after, trace.
  rewrite (run_with_handler s h port host reply bound Hh), Hauto.
  cbn [fst snd app].
  rewrite posts_after_registration, listened_functionId, listened_endpointUrl.
  split; [ reflexivity | ]. split; [ reflexivity | ].
  split; [ reflexivity | ]. split; [ reflexivity | ]. split.
  - intros ->. split; reflexivity.
  - intros -> Hport. unfold listen_outcome, listened. rewrite Hport.
    split; reflexivity.
Qed.

Lemma run_without_autoRegister_witness :
  posts (trace (run 3001 "localhost" created_X true)
           (set_handler (Some echo)
              (initial {| opt_name := "Echo"; opt_description := None;
                          opt_capabilities := None; opt_platformUrl := None;
                          opt_autoRegister := Some false;
                          opt_debug := None |})))
  = []
  /\ server (state_after (run (-1) "localhost" created_X false)
               (set_handler (Some echo)
                  (initial {| opt_name := "Echo"; opt_description := None;
                              opt_capabilities := None; opt_platformUrl := None;
                              opt_autoRegister := Some false;
                              opt_debug := None |})))
     = None.
Proof.
  split.
  - apply (run_without_autoRegister
             (set_handler (Some echo)
                (initial {| opt_name := "Echo"; opt_description := None;
                            opt_capabilities := None; opt_platformUrl := None;
                            opt_autoRegister := Some false;
                            opt_debug := None |}))
             echo 3001 "localhost" created_X true eq_refl eq_refl).
  - apply (run_without_autoRegister
             (set_handler (Some echo)
                (initial {| opt_name := "Echo"; opt_description := None;
                            opt_capabilities := None; opt_platformUrl := None;
                            opt_autoRegister := Some false;
                            opt_debug := None |}))
             echo (-1) "localhost" created_X false eq_refl eq_refl);
      reflexivity.
Defined.

(** X19: with auto-register on, [run] on an instance with a handler sends
    exactly one registration request, whatever the answer and however listen
    ends; when the platform accepts it, the identifier [data.id] is on record
    once [run] is over, and when the socket is bound the server is stored for
    the given port and host. *)
Theorem run_registers_once :
  forall (s : AgentFunction) (h : FunctionHandler) (port : Z) (host : string)
         (reply : axios_result) (bound : bool),
    handler s = Some h ->
    autoRegister s = true ->
    posts (trace (run port host reply bound) s)
      = [platformUrl s ++ "/api/agent-functions"]
    /\ (forall r id,
           reply = Resolves r ->
           platform_accepts reply = true ->
           path2 (data r) "data" "id" = Some id ->
           functionId (state_after (run port host reply bound) s) = id
           /\ (bound = true ->
               server (state_after (run port host reply bound) s)
                 = Some {| server_port := port; server_host := host;
                           listening := true |})).
Proof.
  intros s h port host reply bound Hh Hauto.
  unfold state_after, trace.
  rewrite (run_with_handler s h port host reply bound Hh), Hauto.
  cbn [fst snd].
  split.
  - rewrite posts_app, posts_after_registration, posts_app, register_posts.
    replace (posts (swallowed (outcome (registerWithPlatform host port reply) s)))
      with (@nil string).
    + reflexivity.
    + destruct (register_outcome_shape host port reply s)
        as [[body [_ Hsw]] | [m [_ Hsw]]]; rewrite Hsw; reflexivity.
  - intros r id -> Hacc Hid. unfold state_after.
    rewrite (registered_state host port r s id Hacc Hid). cbn [fst snd].
    rewrite listened_functionId. split; [ reflexivity | ].
    now intros ->.
Qed.

Lemma run_registers_once_witness :
  functionId (state_after (run 3001 "localhost" created_X true)
                (set_handler (Some echo) (initial echo_options)))
  = VStr "X".
Proof.
  apply (proj2 (run_registers_once
                  (set_handler (Some echo) (initial echo_options)) echo
                  3001 "localhost" created_X true eq_refl eq_refl)
           {| status := 201;
              data := VObj [("success", VBool true);
                            ("data", VObj [("id", VStr "X")])] |}
           (VStr "X") eq_refl eq_refl eq_refl).
Defined.

(** ** What a lifecycle never does *)

Lemma post_execute_local req_body s :
  forallb is_local (trace (Routes.post_execute req_body) s) = true.
Proof.
  unfold Routes.post_execute. unfold_monad.
  destruct (handler s) as [h | ]; simpl; [ | reflexivity ].
  destruct (Routes.input_of req_body) as [i | e | ]; simpl.
  - destruct (debug s); simpl;
      destruct (h i) as [r | e | ]; simpl; try reflexivity;
      destruct (JS.message_of e) as [m | e' | ]; try reflexivity;
      destruct (JS.to_string m); reflexivity.
  - destruct (JS.message_of e) as [m | e' | ]; try reflexivity;
      destruct (JS.to_string m); reflexivity.
  - reflexivity.
Qed.

Lemma local_never_exits tr :
  forallb is_local tr = true -> existsb is_exit tr = false.
Proof.
  induction tr as [ | e rest IH ]; simpl; [ reflexivity | ].
  intro H. apply andb_true_iff in H as [He Hrest].
  rewrite (IH Hrest). destruct e; simpl in *; congruence.
Qed.

Lemma register_never_exits host port reply s :
  existsb is_exit (trace (registerWithPlatform host port reply) s
                   ++ swallowed (outcome (registerWithPlatform host port reply) s))
    = false.
Proof.
  unfold trace, outcome.
  destruct (register_outcome host port reply s)
    as [[_ [r [id [_ [_ Heq]]]]] | [_ [cause [Heq _]]]];
    rewrite Heq; unfold accepted_outcome, accepted_log;
    try destruct (JS.to_string id); reflexivity.
Qed.

Lemma unregister_never_exits reply s :
  existsb is_exit (unregister_events reply s) = false.
Proof.
  unfold unregister_events.
  destruct (JS.truthy (functionId s)); [ | reflexivity ].
  destruct (JS.to_string (functionId s)); try reflexivity.
  destruct reply as [r | m]; [ destruct (status r =? 200) | ]; reflexivity.
Qed.

Lemma perform_never_exits (c : call) (s : AgentFunction) :
  existsb is_exit (snd (perform c s)) = false.
Proof.
  destruct c as [h | host port reply | reply | port host reply bound
                 | reply | req_body]; unfold perform, effect; simpl snd.
  - reflexivity.
  - pose proof (register_never_exits host port reply s) as H.
    rewrite existsb_app in H. now apply orb_false_iff in H as [H _].
  - unfold trace. rewrite unregister_run. apply unregister_never_exits.
  - destruct (handler s) as [h | ] eqn:Hh.
    + unfold trace. rewrite (run_with_handler s h port host reply bound Hh).
      cbn [snd]. rewrite existsb_app.
      replace (existsb is_exit (startup_logs s port host
                                ++ listening_events s port host bound))
        with false
        by (unfold listening_events; destruct bound;
            destruct (valid_port port); reflexivity).
      rewrite orb_false_r.
      destruct (autoRegister s); [ apply register_never_exits | reflexivity ].
    + unfold trace.
      now rewrite (run_without_handler_state s port host reply bound Hh).
  - unfold trace. rewrite stop_run. cbn [snd]. rewrite existsb_app.
    replace (existsb is_exit match server s with
                             | Some _ => [Close]
                             | None => []
                             end) with false
      by (destruct (server s); reflexivity).
    destruct (autoRegister s && JS.truthy (functionId s));
      [ apply unregister_never_exits | reflexivity ].
  - apply local_never_exits, post_execute_local.
Qed.

Lemma perform_all_never_exits cs : forall s tr,
  existsb is_exit tr = false ->
  existsb is_exit (snd (perform_all cs s tr)) = false.
Proof.
  induction cs as [ | c rest IH ]; intros s tr Htr; [ exact Htr | ].
  simpl. pose proof (perform_never_exits c s) as Hc.
  destruct (perform c s) as [s1 t1]. apply IH.
  rewrite existsb_app, Htr. exact Hc.
Qed.

(** X20: the class calls [process.exit] in the signal handler only:
    whatever the options, the method calls, the requests to /execute, the
    platform's answers and the handlers, the trace of a lifecycle holds no
    call of [process.exit]. *)
Theorem lifecycle_never_exits :
  forall (options : FunctionOptions) (cs : list call),
    existsb is_exit (snd (history options cs)) = false.
Proof.
  intros options cs. unfold history.
  apply perform_all_never_exits. reflexivity.
Qed.

(** ** The convenience function *)

(** X21: [createFunction(name, handler, options)] returns an instance
    that carries the name and has the handler attached, having registered the
    two signal listeners and nothing else; [run] on it therefore never throws
    the missing-handler error, and it resolves when the socket is bound. *)
Theorem createFunction_ready :
  forall (n : string) (h : FunctionHandler) (options : OtherOptions),
    exists s,
      createFunction n h options
        = (Normal s, [ProcessOn "SIGINT"; ProcessOn "SIGTERM"])
      /\ name s = n
      /\ handler s = Some h
      /\ functionId s = VNull
      /\ (forall port host reply,
            outcome (run port host reply true) s = Normal tt)
      /\ (forall port host reply bound,
            outcome (run port host reply bound) s
            <> Throw (ErrorObj "No handler defined. Use setHandler() first.")).
Proof.
  intros n h options.
  exists (set_handler (Some h) (initial (spread_name n options))).
  split; [ reflexivity | ]. split; [ reflexivity | ].
  split; [ reflexivity | ]. split; [ reflexivity | ]. split.
  - intros port host reply. unfold outcome.
    now rewrite (run_with_handler
                   (set_handler (Some h) (initial (spread_name n options)))
                   h port host reply true eq_refl).
  - intros port host reply bound. unfold outcome.
    rewrite (run_with_handler
               (set_handler (Some h) (initial (spread_name n options)))
               h port host reply bound eq_refl).
    cbn [fst]. unfold listen_outcome, bad_port_message.
    destruct bound; [ discriminate | ].
    destruct (valid_port port); discriminate.
Qed.

(** ** More on lifecycles *)

Lemma perform_handler (c : call) (s : AgentFunction) :
  handler (fst (perform c s))
  = match c with
    | CallSetHandler h => Some h
    | _ => handler s
    end.
Proof.
  destruct c as [h | host port reply | reply | port host reply bound
                 | reply | req_body]; unfold perform, effect; simpl fst.
  - reflexivity.
  - unfold state_after.
    destruct (register_outcome host port reply s)
      as [[_ [r [id [_ [_ Heq]]]]] | [_ [cause [Heq _]]]]; rewrite Heq; simpl;
      unfold with_endpoint; destruct (no_endpoint (endpointUrl s)); reflexivity.
  - now rewrite unregister_keeps_state.
  - destruct (handler s) as [h | ] eqn:Hh.
    + rewrite (run_state s h port host reply bound Hh), listened_handler.
      destruct (autoRegister s); [ | exact Hh ].
      unfold state_after.
      destruct (register_outcome host port reply s)
        as [[_ [r [id [_ [_ Heq]]]]] | [_ [cause [Heq _]]]]; rewrite Heq; simpl;
        unfold with_endpoint; destruct (no_endpoint (endpointUrl s)); exact Hh.
    + unfold state_after.
      now rewrite (run_without_handler_state s port host reply bound Hh).
  - rewrite stop_state. now destruct (server s).
  - now rewrite post_execute_keeps_state.
Qed.

(** X22: the handler attached to an instance is always the one of the
    latest [setHandler] call (none before the first): no other call attaches,
    replaces or detaches a handler. *)
Theorem handler_is_latest_set :
  forall (options : FunctionOptions) (cs : list call),
    handler (fst (history options cs)) = attached cs None.
Proof.
  intros options cs. unfold history, attached.
  change (@None FunctionHandler) with (handler (initial options)).
  generalize (initial options) (snd (constructor options)).
  induction cs as [ | c rest IH ]; intros s tr; [ reflexivity | ].
  rewrite perform_all_cons, IH, perform_handler. simpl.
  destruct c; reflexivity.
Qed.

Lemma prefix_append (a b : string) : String.prefix a (a ++ b) = true.
Proof.
  induction a as [ | c a IH ]; simpl; [ now destruct b | ].
  destruct (ascii_dec c c) as [_ | Hc]; [ exact IH | contradiction ].
Qed.

Lemma append_assoc3 (a b c : string) : (a ++ b ++ c = (a ++ b) ++ c)%string.
Proof. induction a as [ | x a IH ]; simpl; [ reflexivity | now rewrite IH ]. Qed.

Lemma register_requests_ok host port reply s :
  forallb (request_ok (platformUrl s))
    (trace (registerWithPlatform host port reply) s
     ++ swallowed (outcome (registerWithPlatform host port reply) s)) = true.
Proof.
  unfold trace, outcome.
  destruct (register_outcome host port reply s)
    as [[_ [r [id [_ [_ Heq]]]]] | [_ [cause [Heq _]]]];
    rewrite Heq; unfold accepted_outcome, accepted_log;
    try destruct (JS.to_string id);
    simpl; rewrite with_endpoint_platformUrl, String.eqb_refl;
    reflexivity.
Qed.

Lemma unregister_requests_ok reply s :
  forallb (request_ok (platformUrl s)) (unregister_events reply s) = true.
Proof.
  unfold unregister_events, unregister_url.
  destruct (JS.truthy (functionId s)); [ | reflexivity ].
  destruct (JS.to_string (functionId s)) as [id | | ]; try reflexivity.
  cbn [forallb request_ok]. rewrite append_assoc3, prefix_append.
  destruct reply as [r | m]; [ destruct (status r =? 200) | ]; reflexivity.
Qed.

Lemma local_requests_ok base tr :
  forallb is_local tr = true -> forallb (request_ok base) tr = true.
Proof.
  induction tr as [ | e rest IH ]; simpl; [ reflexivity | ].
  intro H. apply andb_true_iff in H as [He Hrest].
  rewrite (IH Hrest). destruct e; simpl in *; congruence.
Qed.

Lemma perform_requests_ok (c : call) (s : AgentFunction) :
  forallb (request_ok (platformUrl s)) (snd (perform c s)) = true.
Proof.
  destruct c as [h | host port reply | reply | port host reply bound
                 | reply | req_body]; unfold perform, effect; simpl snd.
  - reflexivity.
  - pose proof (register_requests_ok host port reply s) as H.
    rewrite forallb_app in H. now apply andb_true_iff in H as [H _].
  - unfold trace. rewrite unregister_run. apply unregister_requests_ok.
  - destruct (handler s) as [h | ] eqn:Hh.
    + unfold trace. rewrite (run_with_handler s h port host reply bound Hh).
      cbn [snd]. rewrite forallb_app.
      replace (forallb (request_ok (platformUrl s))
                 (startup_logs s port host
                  ++ listening_events s port host bound))
        with true
        by (unfold listening_events; destruct bound;
            destruct (valid_port port); reflexivity).
      rewrite andb_true_r.
      destruct (autoRegister s); [ apply register_requests_ok | reflexivity ].
    + unfold trace.
      now rewrite (run_without_handler_state s port host reply bound Hh).
  - unfold trace. rewrite stop_run. cbn [snd]. rewrite forallb_app.
    replace (forallb (request_ok (platformUrl s))
               match server s with
               | Some _ => [Close]
               | None => []
               end) with true
      by (destruct (server s); reflexivity).
    destruct (autoRegister s && JS.truthy (functionId s));
      [ apply unregister_requests_ok | reflexivity ].
  - apply local_requests_ok, post_execute_local.
Qed.

Lemma perform_all_requests_ok base cs : forall s tr,
  platformUrl s = base ->
  forallb (request_ok base) tr = true ->
  forallb (request_ok base) (snd (perform_all cs s tr)) = true.
Proof.
  induction cs as [ | c rest IH ]; intros s tr Hbase Htr; [ exact Htr | ].
  simpl. pose proof (perform_requests_ok c s) as Hc.
  pose proof (perform_config c s) as [_ [_ [_ [Hurl _]]]].
  destruct (perform c s) as [s1 t1]. simpl in *. apply IH.
  - congruence.
  - rewrite forallb_app, Htr. now rewrite Hbase in Hc.
Qed.

(** X23: every outbound request of a lifecycle goes to the platform URL
    given to the constructor (the default when none or an empty one was
    given) and carries the 10 second timeout: each POST goes to
    [<platformUrl>/api/agent-functions], each DELETE below
    [<platformUrl>/api/agent-functions/]. *)
Theorem lifecycle_requests :
  forall (options : FunctionOptions) (cs : list call),
    forallb (request_ok (platform_of options)) (snd (history options cs))
      = true.
Proof.
  intros options cs. unfold history.
  apply perform_all_requests_ok; reflexivity.
Qed.

Lemma invocations_app t1 t2 :
  invocations (t1 ++ t2) = (invocations t1 ++ invocations t2)%list.
Proof.
  induction t1 as [ | e rest IH ]; simpl; [ reflexivity | ].
  destruct e; simpl; rewrite IH; reflexivity.
Qed.

Lemma unregister_invocations reply s :
  invocations (unregister_events reply s) = [].
Proof.
  unfold unregister_events.
  destruct (JS.truthy (functionId s)); [ | reflexivity ].
  destruct (JS.to_string (functionId s)); try reflexivity.
  destruct reply as [r | m]; [ destruct (status r =? 200) | ]; reflexivity.
Qed.

Lemma register_invocations host port reply s :
  invocations (trace (registerWithPlatform host port reply) s
               ++ swallowed (outcome (registerWithPlatform host port reply) s))
  = [].
Proof.
  unfold trace, outcome.
  destruct (register_outcome host port reply s)
    as [[_ [r [id [_ [_ Heq]]]]] | [_ [cause [Heq _]]]];
    rewrite Heq; unfold accepted_outcome, accepted_log;
    try destruct (JS.to_string id); reflexivity.
Qed.

Lemma perform_invocations (c : call) (s : AgentFunction) :
  (List.length (invocations (snd (perform c s)))
   <= if is_post_execute c then 1 else 0)%nat.
Proof.
  destruct c as [h | host port reply | reply | port host reply bound
                 | reply | req_body]; unfold perform, effect; simpl snd;
    cbn [is_post_execute].
  - apply le_n.
  - pose proof (register_invocations host port reply s) as H.
    rewrite invocations_app in H. apply app_eq_nil in H as [H _].
    rewrite H. apply le_n.
  - unfold trace. rewrite unregister_run. cbn [snd].
    rewrite unregister_invocations. apply le_n.
  - destruct (handler s) as [h | ] eqn:Hh.
    + unfold trace. rewrite (run_with_handler s h port host reply bound Hh).
      cbn [snd]. rewrite invocations_app.
      replace (invocations (startup_logs s port host
                            ++ listening_events s port host bound))
        with (@nil value)
        by (unfold listening_events; destruct bound;
            destruct (valid_port port); reflexivity).
      rewrite app_nil_r.
      destruct (autoRegister s);
        [ rewrite register_invocations | ]; apply le_n.
    + unfold trace.
      rewrite (run_without_handler_state s port host reply bound Hh).
      apply le_n.
  - unfold trace. rewrite stop_run. cbn [snd]. rewrite invocations_app.
    replace (invocations match server s with
                         | Some _ => [Close]
                         | None => []
                         end) with (@nil value)
      by (destruct (server s); reflexivity).
    destruct (autoRegister s && JS.truthy (functionId s));
      [ rewrite unregister_invocations | ]; apply le_n.
  - unfold Routes.post_execute. unfold_monad.
    destruct (handler s) as [h | ]; simpl; [ | auto ].
    destruct (Routes.input_of req_body) as [i | e | ]; simpl.
    + destruct (debug s); simpl;
        destruct (h i) as [r | e | ]; simpl; auto;
        destruct (JS.message_of e) as [m | e' | ]; simpl; auto;
        destruct (JS.to_string m); simpl; auto.
    + destruct (JS.message_of e) as [m | e' | ]; simpl; auto;
        destruct (JS.to_string m); simpl; auto.
    + auto.
Qed.

Lemma perform_all_invocations cs : forall s tr,
  (List.length (invocations (snd (perform_all cs s tr)))
   <= List.length (invocations tr)
      + List.length (filter is_post_execute cs))%nat.
Proof.
  induction cs as [ | c rest IH ]; intros s tr; simpl; [ lia | ].
  pose proof (perform_invocations c s) as Hc.
  destruct (perform c s) as [s1 t1]. simpl in Hc.
  specialize (IH s1 (tr ++ t1)%list).
  rewrite invocations_app, length_app in IH.
  destruct (is_post_execute c); simpl; lia.
Qed.

(** X24: the handler is called by requests to /execute only, at most once
    per request: in every lifecycle the number of handler calls is at most
    the number of POSTs to /execute; registration, deregistration, [run] and
    [stop] never call it. *)
Theorem handler_called_by_execute_only :
  forall (options : FunctionOptions) (cs : list call),
    (List.length (invocations (snd (history options cs)))
     <= List.length (filter is_post_execute cs))%nat.
Proof.
  intros options cs. unfold history.
  pose proof (perform_all_invocations cs (initial options)
                (snd (constructor options))) as H.
  simpl in H. exact H.
Qed.
